(** * GPU tensor storage of the Vulkan backend (Tensor.cpp)

    A shallow embedding of [backends/vulkan/runtime/api/Tensor.cpp]:
    the layout calculator ([calc_gpu_sizes], [create_image_extents]), the
    resource allocator wrappers ([allocate_image], [allocate_buffer]), the
    storage object with its hazard tracking ([vTensorStorage]) and the
    tensor handle with its resize operations ([vTensor]).

    Integers of the source ([int64_t] sizes, [uint32_t] extents, [int32_t]
    limits, Vulkan flag words) are values of [Z]; where the source computes
    in 32 bits the wrap-around is written out.  C++ exceptions are values of
    [result]; a method that mutates [*this] before it throws is a function
    from the state to the state after and the outcome. *)

From Stdlib Require Import ZArith String Bool Lia.
From stdpp Require Import base list.

Local Open Scope Z_scope.

(** ** Errors and the two small monads *)

(** Modelled from the spec: the error classes of section 7.  The macros
    [VK_CHECK_COND] and [VK_THROW] are not part of the translation unit; a
    failed check raises an [InvalidArgument]-class error that carries the
    message of the call site. *)
Inductive vk_error : Type :=
  | InvalidArgument (msg : string)
  | UnsupportedConfiguration (msg : string)
  | DeviceResourceExhausted (msg : string).

Inductive result (A : Type) : Type :=
  | Ok (a : A)
  | Err (e : vk_error).
Arguments Ok {A} a.
Arguments Err {A} e.

Definition rbind {A B} (r : result A) (k : A -> result B) : result B :=
  match r with
  | Ok a => k a
  | Err e => Err e
  end.

Notation "'let*' x ':=' r 'in' k" := (rbind r (fun x => k))
  (at level 10, x pattern, r at level 100, k at level 200).

Definition VK_CHECK_COND (cond : bool) (msg : string) : result unit :=
  if cond then Ok tt else Err (InvalidArgument msg).

Definition is_ok {A} (r : result A) : bool :=
  match r with Ok _ => true | Err _ => false end.

(** A method body: the object before, the object after, and either the
    returned value or the exception that left the method. *)
Definition M (S A : Type) : Type := S -> S * result A.

Definition mret {S A} (a : A) : M S A := fun s => (s, Ok a).

Definition mbind {S A B} (m : M S A) (k : A -> M S B) : M S B :=
  fun s =>
    match m s with
    | (s', Ok a) => k a s'
    | (s', Err e) => (s', Err e)
    end.

Definition mget {S} : M S S := fun s => (s, Ok s).

Definition mmodify {S} (f : S -> S) : M S unit := fun s => (f s, Ok tt).

Definition mlift {S A} (r : result A) : M S A := fun s => (s, r).

Definition mwhen {S} (b : bool) (m : M S unit) : M S unit :=
  if b then m else mret tt.

Notation "'do*' x ':=' m 'in' k" := (mbind m (fun x => k))
  (at level 10, x pattern, m at level 100, k at level 200).
Notation "m ';;*' k" := (mbind m (fun _ => k))
  (at level 100, k at level 200, right associativity).

(** ** Enumerations and small vectors *)

Inductive StorageType : Type := kBuffer | kTexture3D | kTexture2D.

Inductive GPUMemoryLayout : Type := kWidthPacked | kHeightPacked | kChannelsPacked.

Definition is_buffer (st : StorageType) : bool :=
  match st with kBuffer => true | _ => false end.

Record uvec3 : Type := mk_uvec3 { data0 : Z; data1 : Z; data2 : Z }.

Definition uvec3_data (v : uvec3) (i : Z) : Z :=
  if i =? 0 then data0 v else if i =? 1 then data1 v else data2 v.

Record ivec3 : Type := mk_ivec3 { idata0 : Z; idata1 : Z; idata2 : Z }.

(** 32-bit arithmetic of the source. *)
Definition u32 (x : Z) : Z := x mod 2 ^ 32.

Definition i32 (x : Z) : Z := (x + 2 ^ 31) mod 2 ^ 32 - 2 ^ 31.

(** ** Helpers of Utils.h *)

(** Modelled from the spec: [api::utils::val_at] is declared in Utils.h.
    Sections 3 and 4.1: dimensions are read right-aligned, a negative index
    counts from the innermost dimension ([-1] is the last entry), and a
    dimension the shape does not have reads as 1. *)
Definition val_at (index : Z) (sizes : list Z) : Z :=
  let ndim := Z.of_nat (length sizes) in
  if 0 <=? ndim + index
  then default 1 (sizes !! Z.to_nat (ndim + index))
  else 1.

(** Modelled from the spec: [api::utils::align_up] is declared in Utils.h.
    Section 4.1: the value rounded up to the next multiple of [multiple]. *)
Definition align_up (number multiple : Z) : Z :=
  (number + multiple - 1) / multiple * multiple.

(** Modelled from the spec: [api::utils::multiply_integers] is declared in
    Utils.h.  Section 4.3 and the second example of section 8: the element
    count of a shape is the product of its entries. *)
Definition multiply_integers (sizes : list Z) : Z :=
  foldr Z.mul 1 sizes.

(** ** Layout calculator *)

(** [gpu_sizes.resize(n)] followed by the element-wise copy loop of
    [calc_gpu_sizes]; [at] is in range at every iteration. *)
Definition copy_sizes (sizes : list Z) : list Z :=
  foldl (fun gpu_sizes i => <[i := default 0 (sizes !! i)]> gpu_sizes)
        (replicate (length sizes) 0)
        (seq 0 (length sizes)).

Definition calc_gpu_sizes (sizes : list Z) (memory_layout : GPUMemoryLayout)
    (storage_type : StorageType) : result (list Z) :=
  let* gpu_sizes :=
    (if is_buffer storage_type
     then Ok (copy_sizes sizes)
     else
       let* _ := VK_CHECK_COND
                   ((0 <=? length sizes)%nat && (length sizes <=? 4)%nat)
                   "Texture storage only valid for 0 <= ndim <= 4, received: " in
       Ok [val_at (-4) sizes; val_at (-3) sizes;
           val_at (-2) sizes; val_at (-1) sizes]) in
  let ndim := length gpu_sizes in
  Ok (match memory_layout with
      | kWidthPacked =>
          if (1 <=? ndim)%nat
          then <[(ndim - 1)%nat := align_up (val_at (-1) sizes) 4]> gpu_sizes
          else gpu_sizes
      | kHeightPacked =>
          if (2 <=? ndim)%nat
          then <[(ndim - 2)%nat := align_up (val_at (-2) sizes) 4]> gpu_sizes
          else gpu_sizes
      | kChannelsPacked =>
          if (3 <=? ndim)%nat
          then <[(ndim - 3)%nat := align_up (val_at (-3) sizes) 4]> gpu_sizes
          else gpu_sizes
      end).

(** ** Vulkan constants and resource handles *)

Definition VK_NULL_HANDLE : Z := 0.
Definition VK_IMAGE_LAYOUT_UNDEFINED : Z := 0.
Definition VK_PIPELINE_STAGE_TOP_OF_PIPE_BIT : Z := 0x1.
Definition VK_PIPELINE_STAGE_BOTTOM_OF_PIPE_BIT : Z := 0x2000.
Definition VK_IMAGE_TYPE_2D : Z := 1.
Definition VK_IMAGE_TYPE_3D : Z := 2.
Definition VK_IMAGE_VIEW_TYPE_2D : Z := 1.
Definition VK_IMAGE_VIEW_TYPE_3D : Z := 2.

(** Modelled from the spec: [api::VulkanImage] and [api::VulkanBuffer] are
    declared by the resource library.  Section 3: a resource is either live
    or the library's null value; an image carries its current memory layout;
    section 4.3: each resource knows whether it owns its memory. *)
Record VulkanImage : Type := mk_VulkanImage {
  image_handle : Z;
  image_layout : Z;
  image_owns_memory : bool
}.

Record VulkanBuffer : Type := mk_VulkanBuffer {
  buffer_handle : Z;
  buffer_owns_memory : bool
}.

Definition VulkanImage_null : VulkanImage :=
  mk_VulkanImage VK_NULL_HANDLE VK_IMAGE_LAYOUT_UNDEFINED false.

Definition VulkanBuffer_null : VulkanBuffer :=
  mk_VulkanBuffer VK_NULL_HANDLE false.

(** [operator bool] of the two resource classes. *)
Definition image_live (i : VulkanImage) : bool :=
  negb (image_handle i =? VK_NULL_HANDLE).

Definition buffer_live (b : VulkanBuffer) : bool :=
  negb (buffer_handle b =? VK_NULL_HANDLE).

Definition set_layout (new_layout : Z) (i : VulkanImage) : VulkanImage :=
  mk_VulkanImage (image_handle i) new_layout (image_owns_memory i).

(** ** Barrier accumulator *)

Record ImageMemoryBarrier : Type := mk_ImageMemoryBarrier {
  img_src_access : Z;
  img_dst_access : Z;
  img_old_layout : Z;
  img_new_layout : Z;
  img_barrier_image : Z
}.

Record BufferMemoryBarrier : Type := mk_BufferMemoryBarrier {
  buf_src_access : Z;
  buf_dst_access : Z;
  buf_barrier_buffer : Z
}.

Record PipelineBarrier : Type := mk_PipelineBarrier {
  stage_src : Z;
  stage_dst : Z;
  buffers : list BufferMemoryBarrier;
  images : list ImageMemoryBarrier
}.

(** ** Storage state *)

Record LastAccess : Type := mk_LastAccess {
  stage : Z;
  access : Z
}.

Definition LastAccess_empty : LastAccess := mk_LastAccess 0 0.

(** The fields of [vTensorStorage]; the [context_] pointer is the device
    state that the methods below thread explicitly. *)
Record vTensorStorage : Type := mk_vTensorStorage {
  storage_type_ : StorageType;
  extents_ : uvec3;
  buffer_length_ : Z;
  image_ : VulkanImage;
  buffer_ : VulkanBuffer;
  last_access_ : LastAccess
}.

Definition with_image (i : VulkanImage) (s : vTensorStorage) : vTensorStorage :=
  mk_vTensorStorage (storage_type_ s) (extents_ s) (buffer_length_ s)
                    i (buffer_ s) (last_access_ s).

Definition with_buffer (b : VulkanBuffer) (s : vTensorStorage) : vTensorStorage :=
  mk_vTensorStorage (storage_type_ s) (extents_ s) (buffer_length_ s)
                    (image_ s) b (last_access_ s).

Definition with_last_access (a : LastAccess) (s : vTensorStorage) : vTensorStorage :=
  mk_vTensorStorage (storage_type_ s) (extents_ s) (buffer_length_ s)
                    (image_ s) (buffer_ s) a.

Definition with_extents (e : uvec3) (s : vTensorStorage) : vTensorStorage :=
  mk_vTensorStorage (storage_type_ s) e (buffer_length_ s)
                    (image_ s) (buffer_ s) (last_access_ s).

Definition with_buffer_length (n : Z) (s : vTensorStorage) : vTensorStorage :=
  mk_vTensorStorage (storage_type_ s) (extents_ s) n
                    (image_ s) (buffer_ s) (last_access_ s).

(** Run a method of a member object inside the enclosing object. *)
Definition mzoom {S T A} (get : S -> T) (set : T -> S -> S) (m : M T A) : M S A :=
  fun s => let (t', r) := m (get s) in (set t' s, r).

(** ** The collaborators of the translation unit

    Everything below is parameterised by the parts of the runtime that the
    file calls but does not define. *)

Section Collaborators.

(** [api::utils::safe_downcast<uint32_t>] is declared in Utils.h and the
    spec does not describe it: a checked narrowing whose failure raises. *)
Variable safe_downcast_u32 : Z -> result Z.

Definition create_image_extents (gpu_sizes : list Z)
    (storage_type : StorageType) (memory_layout : GPUMemoryLayout)
    : result uvec3 :=
  let ndim := length gpu_sizes in
  if is_buffer storage_type
  then Ok (mk_uvec3 0 0 0)
  else
    let* _ := VK_CHECK_COND ((1 <=? ndim)%nat && (ndim <=? 4)%nat)
                "Texture storage only valid for 1 <= ndim <= 4!" in
    let* width := safe_downcast_u32 (val_at (-1) gpu_sizes) in
    let* height := safe_downcast_u32 (val_at (-2) gpu_sizes) in
    let* channels := safe_downcast_u32 (val_at (-3) gpu_sizes) in
    let* batch := safe_downcast_u32 (val_at (-4) gpu_sizes) in
    (* the three cases are all of the enumeration: the [default] branch of
       the source, which throws, has no value to run on *)
    match memory_layout with
    | kWidthPacked =>
        let* _ := VK_CHECK_COND (width mod 4 =? 0)
                    "Width must be divisible by 4!" in
        Ok (mk_uvec3 (width / 4) height (u32 (batch * channels)))
    | kHeightPacked =>
        let* _ := VK_CHECK_COND (height mod 4 =? 0)
                    "Height must be divisible by 4!" in
        Ok (mk_uvec3 width (height / 4) (u32 (batch * channels)))
    | kChannelsPacked =>
        let* _ := VK_CHECK_COND (channels mod 4 =? 0)
                    "Channels must be divisible by 4!" in
        Ok (mk_uvec3 width height (u32 (batch * (channels / 4))))
    end.

(** *** Physical resource allocator *)

(** The device context behind [api::Context*] and the element types of
    Types.h. *)
Variable Context : Type.
Variable ScalarType : Type.
Variable to_vkformat : ScalarType -> Z.
Variable element_size : ScalarType -> Z.

(** [adapter_ptr->vma().create_image(...)], preceded by the lookup of the
    fixed nearest/repeat sampler in the sampler cache: extent, format, image
    type, view type and [allocate_memory]. *)
Variable vma_create_image : uvec3 -> Z -> Z -> Z -> bool -> M Context VulkanImage.

(** [adapter_ptr->vma().create_storage_buffer(size, gpu_only = true,
    allocate_memory)]. *)
Variable vma_create_storage_buffer : Z -> bool -> M Context VulkanBuffer.

(** [Context::register_image_cleanup] and [register_buffer_cleanup] take
    the resource by reference: they return the device state and what is
    left in the member. *)
Variable register_image_cleanup : VulkanImage -> Context -> Context * VulkanImage.
Variable register_buffer_cleanup : VulkanBuffer -> Context -> Context * VulkanBuffer.

Definition allocate_image (extents : uvec3) (storage_type : StorageType)
    (image_format : Z) (allocate_memory : bool) : M Context VulkanImage :=
  match storage_type with
  | kTexture3D =>
      vma_create_image extents image_format
        VK_IMAGE_TYPE_3D VK_IMAGE_VIEW_TYPE_3D allocate_memory
  | kTexture2D =>
      vma_create_image extents image_format
        VK_IMAGE_TYPE_2D VK_IMAGE_VIEW_TYPE_2D allocate_memory
  | kBuffer => mret VulkanImage_null
  end.

Definition allocate_buffer (numel : Z) (storage_type : StorageType)
    (dtype : ScalarType) (allocate_memory : bool) : M Context VulkanBuffer :=
  match storage_type with
  | kBuffer =>
      vma_create_storage_buffer (element_size dtype * numel) allocate_memory
  | _ => mret VulkanBuffer_null
  end.

(** *** vTensorStorage *)

(** The constructor: the member initialisers in order. *)
Definition vTensorStorage_new (storage_type : StorageType)
    (gpu_memory_layout : GPUMemoryLayout) (gpu_sizes : list Z)
    (dtype : ScalarType) (allocate_memory : bool) : M Context vTensorStorage :=
  do* extents :=
    mlift (create_image_extents gpu_sizes storage_type gpu_memory_layout) in
  let buffer_length := multiply_integers gpu_sizes in
  do* image :=
    allocate_image extents storage_type (to_vkformat dtype) allocate_memory in
  do* buffer :=
    allocate_buffer buffer_length storage_type dtype allocate_memory in
  mret (mk_vTensorStorage storage_type extents buffer_length
                          image buffer LastAccess_empty).

Definition flush (w : Context * vTensorStorage) : Context * vTensorStorage :=
  let (ctx, s) := w in
  let (ctx', s') :=
    if image_live (image_ s) then
      let (c, i) := register_image_cleanup (image_ s) ctx in
      (c, with_image i s)
    else if buffer_live (buffer_ s) then
      let (c, b) := register_buffer_cleanup (buffer_ s) ctx in
      (c, with_buffer b s)
    else (ctx, s) in
  (ctx', with_last_access LastAccess_empty s').

(** The stage, access and layout mappings of the pipeline library and the
    write bit of [MemoryAccessType]. *)
Variable vk_stage : Z -> Z.
Variable vk_access : Z -> Z -> Z.
Variable vk_layout : Z -> Z -> Z.
Variable WRITE : Z.

(** The two conditions of [transition], read off a storage state. *)
Definition prev_written_of (s : vTensorStorage) : bool :=
  negb (Z.land (access (last_access_ s)) WRITE =? 0).

Definition layout_changed_of (cur_stage cur_access : Z)
    (s : vTensorStorage) : bool :=
  image_live (image_ s) &&
  negb (image_layout (image_ s) =? vk_layout cur_stage cur_access).

Definition transition (pipeline_barrier : PipelineBarrier)
    (cur_stage cur_access : Z) (s : vTensorStorage)
    : vTensorStorage * PipelineBarrier :=
  let prev_stage := stage (last_access_ s) in
  let prev_access := access (last_access_ s) in
  let prev_written := negb (Z.land prev_access WRITE =? 0) in
  let '(cur_layout, new_layout, layout_changed) :=
    if image_live (image_ s) then
      let cur_layout := image_layout (image_ s) in
      let new_layout := vk_layout cur_stage cur_access in
      (cur_layout, new_layout, negb (cur_layout =? new_layout))
    else (VK_IMAGE_LAYOUT_UNDEFINED, VK_IMAGE_LAYOUT_UNDEFINED, false) in
  let (s1, pb1) :=
    if prev_written || layout_changed then
      let src_stage :=
        if 0 =? vk_stage prev_stage
        then VK_PIPELINE_STAGE_TOP_OF_PIPE_BIT else vk_stage prev_stage in
      let dst_stage :=
        if 0 =? vk_stage cur_stage
        then VK_PIPELINE_STAGE_BOTTOM_OF_PIPE_BIT else vk_stage cur_stage in
      let src := Z.lor (stage_src pipeline_barrier) src_stage in
      let dst := Z.lor (stage_dst pipeline_barrier) dst_stage in
      if image_live (image_ s) then
        (with_image (set_layout new_layout (image_ s)) s,
         mk_PipelineBarrier src dst (buffers pipeline_barrier)
           (images pipeline_barrier ++
              [mk_ImageMemoryBarrier
                 (vk_access prev_stage prev_access)
                 (vk_access cur_stage cur_access)
                 cur_layout new_layout (image_handle (image_ s))]))
      else if buffer_live (buffer_ s) then
        (s,
         mk_PipelineBarrier src dst
           (buffers pipeline_barrier ++
              [mk_BufferMemoryBarrier
                 (vk_access prev_stage prev_access)
                 (vk_access cur_stage cur_access)
                 (buffer_handle (buffer_ s))])
           (images pipeline_barrier))
      else
        (s, mk_PipelineBarrier src dst
              (buffers pipeline_barrier) (images pipeline_barrier))
    else (s, pipeline_barrier) in
  (with_last_access (mk_LastAccess cur_stage cur_access) s1, pb1).

Definition discard_and_reallocate (gpu_sizes : list Z)
    (gpu_memory_layout : GPUMemoryLayout) (dtype : ScalarType)
    : M (Context * vTensorStorage) unit :=
  do* w := mget in
  let image_owns_memory := image_owns_memory (image_ (snd w)) in
  let buffer_owns_memory := buffer_owns_memory (buffer_ (snd w)) in
  mmodify flush ;;*
  do* w := mget in
  do* extents :=
    mlift (create_image_extents gpu_sizes (storage_type_ (snd w))
                                gpu_memory_layout) in
  mmodify (fun w => (fst w, with_extents extents (snd w))) ;;*
  do* image :=
    mzoom fst (fun c w => (c, snd w))
      (allocate_image extents (storage_type_ (snd w))
                      (to_vkformat dtype) image_owns_memory) in
  mmodify (fun w => (fst w, with_image image (snd w))) ;;*
  let buffer_length := multiply_integers gpu_sizes in
  mmodify (fun w => (fst w, with_buffer_length buffer_length (snd w))) ;;*
  do* buffer :=
    mzoom fst (fun c w => (c, snd w))
      (allocate_buffer buffer_length (storage_type_ (snd w))
                       dtype buffer_owns_memory) in
  mmodify (fun w => (fst w, with_buffer buffer (snd w))).

(** *** vTensor *)

(** [api::utils::safe_downcast<int32_t>], as above. *)
Variable safe_downcast_i32 : Z -> result Z.

(** [api::utils::make_whcn_ivec4] of Utils.h, the payload of the sizes
    uniform buffer. *)
Variable ivec4 : Type.
Variable make_whcn_ivec4 : list Z -> ivec4.

(** [kHalf] of Types.h and the adapter's capability query. *)
Variable is_kHalf : ScalarType -> bool.
Variable has_16bit_storage : bool.

(** The read bit of [MemoryAccessType], the default access of the
    accessors. *)
Variable READ : Z.

Record PackedDimMeta : Type := mk_PackedDimMeta {
  dim_size : Z;
  dim_size_padded : Z;
  dim_texel_len : Z;
  padding : Z
}.

(** The fields of [vTensor].  A [UniformParamsBuffer] is its payload once
    it has been created and [None] while [buffer()] is still null. *)
Record vTensor : Type := mk_vTensor {
  dtype_ : ScalarType;
  memory_layout_ : GPUMemoryLayout;
  sizes_ : list Z;
  gpu_sizes_ : list Z;
  texture_limits_ : ivec3;
  sizes_uniform_ : option ivec4;
  texture_limits_uniform_ : option ivec3;
  packed_dim_meta_ : option PackedDimMeta;
  storage_ : vTensorStorage
}.

Definition with_sizes (x : list Z) (t : vTensor) : vTensor :=
  mk_vTensor (dtype_ t) (memory_layout_ t) x (gpu_sizes_ t)
    (texture_limits_ t) (sizes_uniform_ t) (texture_limits_uniform_ t)
    (packed_dim_meta_ t) (storage_ t).

Definition with_gpu_sizes (x : list Z) (t : vTensor) : vTensor :=
  mk_vTensor (dtype_ t) (memory_layout_ t) (sizes_ t) x
    (texture_limits_ t) (sizes_uniform_ t) (texture_limits_uniform_ t)
    (packed_dim_meta_ t) (storage_ t).

Definition with_texture_limits (x : ivec3) (t : vTensor) : vTensor :=
  mk_vTensor (dtype_ t) (memory_layout_ t) (sizes_ t) (gpu_sizes_ t)
    x (sizes_uniform_ t) (texture_limits_uniform_ t)
    (packed_dim_meta_ t) (storage_ t).

Definition with_sizes_uniform (x : option ivec4) (t : vTensor) : vTensor :=
  mk_vTensor (dtype_ t) (memory_layout_ t) (sizes_ t) (gpu_sizes_ t)
    (texture_limits_ t) x (texture_limits_uniform_ t)
    (packed_dim_meta_ t) (storage_ t).

Definition with_texture_limits_uniform (x : option ivec3) (t : vTensor) : vTensor :=
  mk_vTensor (dtype_ t) (memory_layout_ t) (sizes_ t) (gpu_sizes_ t)
    (texture_limits_ t) (sizes_uniform_ t) x
    (packed_dim_meta_ t) (storage_ t).

Definition with_packed_dim_meta (x : option PackedDimMeta) (t : vTensor) : vTensor :=
  mk_vTensor (dtype_ t) (memory_layout_ t) (sizes_ t) (gpu_sizes_ t)
    (texture_limits_ t) (sizes_uniform_ t) (texture_limits_uniform_ t)
    x (storage_ t).

Definition with_storage (x : vTensorStorage) (t : vTensor) : vTensor :=
  mk_vTensor (dtype_ t) (memory_layout_ t) (sizes_ t) (gpu_sizes_ t)
    (texture_limits_ t) (sizes_uniform_ t) (texture_limits_uniform_ t)
    (packed_dim_meta_ t) x.

(** Accessors of Tensor.h. *)
Definition storage_type (t : vTensor) : StorageType := storage_type_ (storage_ t).
Definition extents (t : vTensor) : uvec3 := extents_ (storage_ t).

(** Modelled from the spec: [gpu_memory_layout_int] is declared in
    Tensor.h.  Section 3: the packing policy selects the dimension counted
    from the innermost one; width is 0, height 1 and channels 2 (the index
    of the extent component in the first example of section 8). *)
Definition gpu_memory_layout_int (l : GPUMemoryLayout) : Z :=
  match l with
  | kWidthPacked => 0
  | kHeightPacked => 1
  | kChannelsPacked => 2
  end.

Definition texture_limits_of (e : uvec3) : result ivec3 :=
  let* x := safe_downcast_i32 (data0 e) in
  let* y := safe_downcast_i32 (data1 e) in
  let* z := safe_downcast_i32 (data2 e) in
  Ok (mk_ivec3 x y z).

Definition vTensor_new (sizes : list Z) (dtype : ScalarType)
    (storage_type : StorageType) (memory_layout : GPUMemoryLayout)
    (allocate_memory : bool) : M Context vTensor :=
  do* gpu_sizes := mlift (calc_gpu_sizes sizes memory_layout storage_type) in
  do* storage :=
    vTensorStorage_new storage_type memory_layout gpu_sizes dtype
                       allocate_memory in
  (* the constructor body; an exception here destroys [storage_] *)
  let body : result ivec3 :=
    let* limits :=
      (if negb (is_buffer storage_type)
       then texture_limits_of (extents_ storage)
       else Ok (mk_ivec3 0 0 0)) in
    let* _ :=
      (if is_kHalf dtype
       then if has_16bit_storage then Ok tt
            else Err (UnsupportedConfiguration
                   "Half dtype is only available if the physical device supports float16 storage buffers!")
       else Ok tt) in
    Ok limits in
  fun ctx =>
    match body with
    | Ok limits =>
        (ctx, Ok (mk_vTensor dtype memory_layout sizes gpu_sizes limits
                             None None None storage))
    | Err e => (fst (flush (ctx, storage)), Err e)
    end.

(** [image] and [buffer]: the hazard transition, then the handle. *)
Definition vTensor_image (pipeline_barrier : PipelineBarrier)
    (stage access : Z) (t : vTensor) : vTensor * PipelineBarrier * VulkanImage :=
  let (s, pb) := transition pipeline_barrier stage access (storage_ t) in
  (with_storage s t, pb, image_ s).

Definition vTensor_buffer (pipeline_barrier : PipelineBarrier)
    (stage access : Z) (t : vTensor) : vTensor * PipelineBarrier * VulkanBuffer :=
  let (s, pb) := transition pipeline_barrier stage access (storage_ t) in
  (with_storage s t, pb, buffer_ s).

Definition vTensor_image_read (pipeline_barrier : PipelineBarrier)
    (stage : Z) (t : vTensor) : vTensor * PipelineBarrier * VulkanImage :=
  vTensor_image pipeline_barrier stage READ t.

Definition vTensor_buffer_read (pipeline_barrier : PipelineBarrier)
    (stage : Z) (t : vTensor) : vTensor * PipelineBarrier * VulkanBuffer :=
  vTensor_buffer pipeline_barrier stage READ t.

Definition make_packed_dim_metadata (t : vTensor) : result PackedDimMeta :=
  let packed_dim := gpu_memory_layout_int (memory_layout_ t) in
  let dim_size := i32 (val_at (- (packed_dim + 1)) (sizes_ t)) in
  let dim_size_padded := i32 (val_at (- (packed_dim + 1)) (gpu_sizes_ t)) in
  let* dim_texel_len :=
    safe_downcast_i32 (uvec3_data (extents t) packed_dim) in
  let padding := i32 (dim_size_padded - dim_size) in
  Ok (mk_PackedDimMeta dim_size dim_size_padded dim_texel_len padding).

(** The three lazily created uniform buffers; the binding the source
    returns, a reference to the buffer, is not part of the state. *)
Definition sizes_ubo : M vTensor unit :=
  do* t := mget in
  mwhen (negb (bool_decide (is_Some (sizes_uniform_ t))))
    (mmodify (with_sizes_uniform (Some (make_whcn_ivec4 (sizes_ t))))).

Definition texture_limits_ubo : M vTensor unit :=
  do* t := mget in
  mwhen (negb (bool_decide (is_Some (texture_limits_uniform_ t))))
    (mmodify (with_texture_limits_uniform (Some (texture_limits_ t)))).

Definition packed_dim_meta_ubo : M vTensor unit :=
  do* t := mget in
  mwhen (negb (bool_decide (is_Some (packed_dim_meta_ t))))
    (do* m := mlift (make_packed_dim_metadata t) in
     mmodify (with_packed_dim_meta (Some m))).

Definition update_size_metadata (new_sizes : list Z) : M vTensor unit :=
  mmodify (with_sizes new_sizes) ;;*
  do* t := mget in
  do* gpu_sizes :=
    mlift (calc_gpu_sizes (sizes_ t) (memory_layout_ t) (storage_type t)) in
  mmodify (with_gpu_sizes gpu_sizes) ;;*
  do* t := mget in
  mwhen (negb (is_buffer (storage_type t)))
    (do* virtual_extents :=
       mlift (create_image_extents (gpu_sizes_ t) (storage_type t)
                                   (memory_layout_ t)) in
     do* limits := mlift (texture_limits_of virtual_extents) in
     mmodify (with_texture_limits limits)) ;;*
  do* t := mget in
  mwhen (bool_decide (is_Some (sizes_uniform_ t)))
    (mmodify (with_sizes_uniform (Some (make_whcn_ivec4 (sizes_ t))))) ;;*
  do* t := mget in
  mwhen (bool_decide (is_Some (texture_limits_uniform_ t)))
    (mmodify (with_texture_limits_uniform (Some (texture_limits_ t)))) ;;*
  do* t := mget in
  mwhen (bool_decide (is_Some (packed_dim_meta_ t)))
    (do* m := mlift (make_packed_dim_metadata t) in
     mmodify (with_packed_dim_meta (Some m))).

Definition reallocate (new_sizes : list Z) : M (Context * vTensor) unit :=
  mzoom snd (fun t w => (fst w, t)) (update_size_metadata new_sizes) ;;*
  do* w := mget in
  let t := snd w in
  do* gpu_sizes :=
    mlift (calc_gpu_sizes new_sizes (memory_layout_ t) (storage_type t)) in
  mzoom (fun w => (fst w, storage_ (snd w)))
        (fun cs w => (fst cs, with_storage (snd cs) (snd w)))
        (discard_and_reallocate gpu_sizes (memory_layout_ t) (dtype_ t)).

Definition virtual_resize (new_sizes : list Z) : M vTensor unit :=
  do* t := mget in
  mwhen (negb (is_buffer (storage_type t)))
    (do* virtual_extents :=
       mlift (create_image_extents (gpu_sizes_ t) (storage_type t)
                                   (memory_layout_ t)) in
     let valid_resize := data0 virtual_extents <=? data0 (extents t) in
     let valid_resize :=
       valid_resize && (data1 virtual_extents <=? data1 (extents t)) in
     let valid_resize :=
       valid_resize && (data2 virtual_extents <=? data2 (extents t)) in
     mlift (VK_CHECK_COND valid_resize
              "Cannot use virtual resize if new sizes requires a larger texture.")) ;;*
  update_size_metadata new_sizes.

End Collaborators.

Arguments mk_vTensor {ScalarType ivec4}.
Arguments dtype_ {ScalarType ivec4} _.
Arguments memory_layout_ {ScalarType ivec4} _.
Arguments sizes_ {ScalarType ivec4} _.
Arguments gpu_sizes_ {ScalarType ivec4} _.
Arguments texture_limits_ {ScalarType ivec4} _.
Arguments sizes_uniform_ {ScalarType ivec4} _.
Arguments texture_limits_uniform_ {ScalarType ivec4} _.
Arguments packed_dim_meta_ {ScalarType ivec4} _.
Arguments storage_ {ScalarType ivec4} _.
Arguments storage_type {ScalarType ivec4} _.
Arguments extents {ScalarType ivec4} _.
Arguments update_size_metadata safe_downcast_u32 {ScalarType}
  safe_downcast_i32 {ivec4} make_whcn_ivec4 new_sizes _.
Arguments virtual_resize safe_downcast_u32 {ScalarType}
  safe_downcast_i32 {ivec4} make_whcn_ivec4 new_sizes _.

(** ** Vocabulary of the properties *)

(** The distance from the innermost dimension of the axis a packing policy
    selects. *)
Definition packed_dim_from_end (P : GPUMemoryLayout) : nat :=
  match P with
  | kWidthPacked => 1
  | kHeightPacked => 2
  | kChannelsPacked => 3
  end.

(** [r] is [x] rounded up to the next multiple of 4. *)
Definition is_round_up4 (x r : Z) : Prop := r mod 4 = 0 /\ x <= r < x + 4.

(** A shape of rank at most 4 right-aligned into (batch, channel, height,
    width), the missing leading dimensions being 1. *)
Definition right_align4 (shape : list Z) : list Z :=
  replicate (4 - length shape) 1 ++ shape.

Definition in_u32 (x : Z) : Prop := 0 <= x < 2 ^ 32.

Definition in_i32 (x : Z) : Prop := - 2 ^ 31 <= x < 2 ^ 31.

Definition packed_axis (P : GPUMemoryLayout) (b c h w : Z) : Z :=
  match P with
  | kWidthPacked => w
  | kHeightPacked => h
  | kChannelsPacked => c
  end.

(** The channel count after the division of the packed axis. *)
Definition texel_channels (P : GPUMemoryLayout) (c : Z) : Z :=
  match P with
  | kChannelsPacked => c / 4
  | _ => c
  end.

(** The extent of (batch, channel, height, width) with the packed axis in
    texels; the depth is a 32-bit product. *)
Definition texel_extent (P : GPUMemoryLayout) (b c h w : Z) : uvec3 :=
  mk_uvec3 (match P with kWidthPacked => w / 4 | _ => w end)
           (match P with kHeightPacked => h / 4 | _ => h end)
           (u32 (b * texel_channels P c)).

(** Exactly one of the two resources of a storage is live, the one its
    storage type selects; the other is the null value. *)
Definition storage_inv (s : vTensorStorage) : Prop :=
  if is_buffer (storage_type_ s)
  then image_ s = VulkanImage_null /\ buffer_live (buffer_ s) = true
  else buffer_ s = VulkanBuffer_null /\ image_live (image_ s) = true.

(** Componentwise order of extents. *)
Definition uvec3_le (a b : uvec3) : Prop :=
  data0 a <= data0 b /\ data1 a <= data1 b /\ data2 a <= data2 b.

(** What a resize may not touch: the storage with its resources, the
    element type and the packing policy; and a metadata buffer that has not
    been created stays that way. *)
Definition resize_frame {ScalarType ivec4 : Type}
    (t t' : vTensor ScalarType ivec4) : Prop :=
  storage_ t' = storage_ t /\
  dtype_ t' = dtype_ t /\
  memory_layout_ t' = memory_layout_ t /\
  (sizes_uniform_ t = None -> sizes_uniform_ t' = None) /\
  (texture_limits_uniform_ t = None -> texture_limits_uniform_ t' = None) /\
  (packed_dim_meta_ t = None -> packed_dim_meta_ t' = None).

(** The number of texels that hold [x] elements. *)
Definition ceil_div4 (x : Z) : Z := (x + 3) / 4.

(** The extent of a texture for the logical dimensions (batch, channel,
    height, width): the packed axis in texels, rounded up; the depth is a
    32-bit product. *)
Definition shape_extent (P : GPUMemoryLayout) (b c h w : Z) : uvec3 :=
  mk_uvec3 (match P with kWidthPacked => ceil_div4 w | _ => w end)
           (match P with kHeightPacked => ceil_div4 h | _ => h end)
           (u32 (b * match P with kChannelsPacked => ceil_div4 c | _ => c end)).

(** ** A reference device

    One concrete choice of the collaborators, on which the properties below
    are instantiated: checked narrowing casts, an allocator that hands out
    fresh non-null handles, cleanup queues that take the resource out of the
    member, and the usual stage, access and layout tables. *)

Definition ref_safe_downcast_u32 (v : Z) : result Z :=
  if (0 <=? v) && (v <? 2 ^ 32) then Ok v
  else Err (InvalidArgument "Cast failed: out of range!").

Definition ref_safe_downcast_i32 (v : Z) : result Z :=
  if (- 2 ^ 31 <=? v) && (v <? 2 ^ 31) then Ok v
  else Err (InvalidArgument "Cast failed: out of range!").

Inductive RefScalarType : Type := ref_kFloat | ref_kHalf | ref_kInt.

Definition ref_is_kHalf (t : RefScalarType) : bool :=
  match t with ref_kHalf => true | _ => false end.

Definition ref_element_size (t : RefScalarType) : Z :=
  match t with ref_kHalf => 2 | _ => 4 end.

Definition ref_to_vkformat (t : RefScalarType) : Z :=
  match t with ref_kFloat => 109 | ref_kHalf => 97 | ref_kInt => 108 end.

Record RefContext : Type := mk_RefContext {
  next_handle : positive;
  images_to_clear : list VulkanImage;
  buffers_to_clear : list VulkanBuffer
}.

Definition ref_context : RefContext := mk_RefContext 1 [] [].

Definition ref_create_image (extents : uvec3) (format type view : Z)
    (allocate_memory : bool) : M RefContext VulkanImage :=
  fun c =>
    (mk_RefContext (Pos.succ (next_handle c)) (images_to_clear c)
                   (buffers_to_clear c),
     Ok (mk_VulkanImage (Z.pos (next_handle c)) VK_IMAGE_LAYOUT_UNDEFINED
                        allocate_memory)).

Definition ref_create_storage_buffer (size : Z) (allocate_memory : bool)
    : M RefContext VulkanBuffer :=
  fun c =>
    (mk_RefContext (Pos.succ (next_handle c)) (images_to_clear c)
                   (buffers_to_clear c),
     Ok (mk_VulkanBuffer (Z.pos (next_handle c)) allocate_memory)).

Definition ref_register_image_cleanup (i : VulkanImage) (c : RefContext)
    : RefContext * VulkanImage :=
  (mk_RefContext (next_handle c) (images_to_clear c ++ [i]) (buffers_to_clear c),
   VulkanImage_null).

Definition ref_register_buffer_cleanup (b : VulkanBuffer) (c : RefContext)
    : RefContext * VulkanBuffer :=
  (mk_RefContext (next_handle c) (images_to_clear c) (buffers_to_clear c ++ [b]),
   VulkanBuffer_null).

Definition ref_READ : Z := 1.
Definition ref_WRITE : Z := 2.
Definition ref_COMPUTE : Z := 1.
Definition ref_HOST : Z := 2.
Definition ref_TRANSFER : Z := 4.

Definition ref_vk_stage (stage : Z) : Z :=
  Z.lor (if Z.testbit stage 0 then 0x800 else 0)
    (Z.lor (if Z.testbit stage 1 then 0x4000 else 0)
           (if Z.testbit stage 2 then 0x1000 else 0)).

Definition ref_vk_access (stage access : Z) : Z :=
  Z.lor (if Z.testbit access 0 then 0x20 else 0)
        (if Z.testbit access 1 then 0x40 else 0).

Definition ref_vk_layout (stage access : Z) : Z :=
  if stage =? ref_COMPUTE then (if access =? ref_READ then 5 else 1)
  else if stage =? ref_TRANSFER
       then (if access =? ref_READ then 6
             else if access =? ref_WRITE then 7 else 0)
       else 0.

Definition ref_make_whcn_ivec4 (sizes : list Z) : Z * Z * Z * Z :=
  (i32 (val_at (-1) sizes), i32 (val_at (-2) sizes),
   i32 (val_at (-3) sizes), i32 (val_at (-4) sizes)).

(** The constructors and the resize operations on the reference device. *)
Definition ref_vTensorStorage_new :=
  vTensorStorage_new ref_safe_downcast_u32 RefContext RefScalarType
    ref_to_vkformat ref_element_size ref_create_image ref_create_storage_buffer.

Definition ref_vTensor_new :=
  vTensor_new ref_safe_downcast_u32 RefContext RefScalarType ref_to_vkformat
    ref_element_size ref_create_image ref_create_storage_buffer
    ref_register_image_cleanup ref_register_buffer_cleanup
    ref_safe_downcast_i32 (Z * Z * Z * Z) ref_is_kHalf true.

Definition ref_virtual_resize :=
  virtual_resize ref_safe_downcast_u32 (ScalarType := RefScalarType)
    ref_safe_downcast_i32 ref_make_whcn_ivec4.

Definition ref_transition :=
  transition ref_vk_stage ref_vk_access ref_vk_layout ref_WRITE.

(** The storage and the tensor of a width-packed 3D texture of sizes
    [1; 1; 4; 4]: one texel wide, four high, one deep. *)
Definition ref_texture_storage : vTensorStorage :=
  mk_vTensorStorage kTexture3D (mk_uvec3 1 4 1) 16
    (mk_VulkanImage 1 VK_IMAGE_LAYOUT_UNDEFINED true) VulkanBuffer_null
    LastAccess_empty.

Definition ref_texture_tensor : vTensor RefScalarType (Z * Z * Z * Z) :=
  mk_vTensor ref_kFloat kWidthPacked [1; 1; 4; 4] [1; 1; 4; 4]
    (mk_ivec3 1 4 1) None None None ref_texture_storage.

(** The storage of a width-packed linear buffer of sizes [10]. *)
Definition ref_buffer_storage : vTensorStorage :=
  mk_vTensorStorage kBuffer (mk_uvec3 0 0 0) 12
    VulkanImage_null (mk_VulkanBuffer 1 true) LastAccess_empty.

Definition empty_barrier : PipelineBarrier := mk_PipelineBarrier 0 0 [] [].

Definition ref_update_size_metadata :=
  update_size_metadata ref_safe_downcast_u32 (ScalarType := RefScalarType)
    ref_safe_downcast_i32 ref_make_whcn_ivec4.

Definition ref_packed_dim_meta_ubo :=
  packed_dim_meta_ubo RefScalarType ref_safe_downcast_i32 (Z * Z * Z * Z).

Definition ref_discard_and_reallocate :=
  discard_and_reallocate ref_safe_downcast_u32 RefContext RefScalarType
    ref_to_vkformat ref_element_size ref_create_image
    ref_create_storage_buffer ref_register_image_cleanup
    ref_register_buffer_cleanup.

Definition ref_reallocate :=
  reallocate ref_safe_downcast_u32 RefContext RefScalarType ref_to_vkformat
    ref_element_size ref_create_image ref_create_storage_buffer
    ref_register_image_cleanup ref_register_buffer_cleanup
    ref_safe_downcast_i32 (Z * Z * Z * Z) ref_make_whcn_ivec4.

(** The device state once the reference tensor has been constructed. *)
Definition ref_context_used : RefContext := mk_RefContext 2 [] [].

(** The reference tensor with its packed-dimension metadata buffer
    created. *)
Definition ref_texture_tensor_meta : vTensor RefScalarType (Z * Z * Z * Z) :=
  fst (ref_packed_dim_meta_ubo ref_texture_tensor).

(** A linear-buffer tensor of sizes [10], width-packed. *)
Definition ref_buffer_tensor : vTensor RefScalarType (Z * Z * Z * Z) :=
  mk_vTensor ref_kFloat kWidthPacked [10] [12]
    (mk_ivec3 0 0 0) None None None ref_buffer_storage.

(** A device without 16-bit storage. *)
Definition ref_vTensor_new_no_half :=
  vTensor_new ref_safe_downcast_u32 RefContext RefScalarType ref_to_vkformat
    ref_element_size ref_create_image ref_create_storage_buffer
    ref_register_image_cleanup ref_register_buffer_cleanup
    ref_safe_downcast_i32 (Z * Z * Z * Z) ref_is_kHalf false.

(** * Properties *)

(** ** Helpers of Utils.h *)

Lemma copy_sizes_prefix (sizes : list Z) (k : nat) :
  (k <= length sizes)%nat ->
  foldl (fun gpu_sizes i => <[i := default 0 (sizes !! i)]> gpu_sizes)
        (replicate (length sizes) 0) (seq 0 k)
  = take k sizes ++ replicate (length sizes - k) 0.
Proof.
  induction k as [|k IH]; intros Hk.
  - simpl. by rewrite Nat.sub_0_r.
  - rewrite seq_S, foldl_app, IH by lia. simpl.
    destruct (lookup_lt_is_Some_2 sizes k) as [x Hx]; [lia|].
    rewrite Hx. simpl.
    rewrite (take_S_r _ _ _ Hx).
    replace (length sizes - k)%nat with (S (length sizes - S k)) by lia.
    simpl. rewrite <- app_assoc. simpl.
    rewrite insert_app_r_alt; rewrite length_take; [|lia].
    replace (k - k `min` length sizes)%nat with 0%nat by lia.
    done.
Qed.

Lemma copy_sizes_id (sizes : list Z) : copy_sizes sizes = sizes.
Proof.
  unfold copy_sizes. rewrite copy_sizes_prefix by lia.
  rewrite Nat.sub_diag, firstn_all. simpl. by rewrite app_nil_r.
Qed.

Lemma align_up_multiple (n m : Z) : 0 < m -> align_up n m mod m = 0.
Proof. intros Hm. unfold align_up. apply Z.mod_mul. lia. Qed.

Lemma align_up_bounds (n m : Z) : 0 < m -> n <= align_up n m < n + m.
Proof.
  intros Hm. unfold align_up.
  pose proof (Z.div_mod (n + m - 1) m ltac:(lia)) as Hd.
  pose proof (Z.mod_pos_bound (n + m - 1) m Hm) as Hb.
  nia.
Qed.

Lemma align_up_round_up4 (x : Z) : is_round_up4 x (align_up x 4).
Proof.
  split; [apply align_up_multiple | apply align_up_bounds]; lia.
Qed.


(** [val_at] with the index written as a distance from the end. *)
Lemma val_at_from_end (sizes : list Z) (k : nat) (x : Z) :
  (1 <= k <= length sizes)%nat ->
  sizes !! (length sizes - k)%nat = Some x ->
  val_at (- Z.of_nat k) sizes = x.
Proof.
  intros Hk Hx. unfold val_at.
  destruct (Z.leb_spec 0 (Z.of_nat (length sizes) + - Z.of_nat k)); [|lia].
  replace (Z.to_nat (Z.of_nat (length sizes) + - Z.of_nat k))
    with (length sizes - k)%nat by lia.
  by rewrite Hx.
Qed.

Lemma val_at_missing (sizes : list Z) (k : nat) :
  (length sizes < k)%nat -> val_at (- Z.of_nat k) sizes = 1.
Proof.
  intros Hk. unfold val_at.
  destruct (Z.leb_spec 0 (Z.of_nat (length sizes) + - Z.of_nat k)); [lia|done].
Qed.

Lemma val_at_4 (b c h w : Z) :
  val_at (-1) [b; c; h; w] = w /\ val_at (-2) [b; c; h; w] = h /\
  val_at (-3) [b; c; h; w] = c /\ val_at (-4) [b; c; h; w] = b.
Proof. done. Qed.

Lemma list_length_4 (l : list Z) :
  length l = 4%nat -> exists b c h w, l = [b; c; h; w].
Proof.
  destruct l as [|b [|c [|h [|w [|]]]]]; try discriminate. eauto.
Qed.

Lemma right_align4_length (shape : list Z) :
  (length shape <= 4)%nat -> length (right_align4 shape) = 4%nat.
Proof.
  intros Hs. unfold right_align4. rewrite length_app, length_replicate. lia.
Qed.

Lemma val_at_right_align4 (shape : list Z) (k : nat) :
  (length shape <= 4)%nat -> (1 <= k <= 4)%nat ->
  right_align4 shape !! (4 - k)%nat = Some (val_at (- Z.of_nat k) shape).
Proof.
  intros Hs Hk. unfold right_align4.
  destruct (Nat.leb_spec k (length shape)) as [Hle|Hlt].
  - rewrite lookup_app_r; rewrite length_replicate; [|lia].
    replace (4 - k - (4 - length shape))%nat with (length shape - k)%nat by lia.
    destruct (lookup_lt_is_Some_2 shape (length shape - k)) as [x Hx]; [lia|].
    rewrite Hx. f_equal. symmetry. apply val_at_from_end; [lia|done].
  - rewrite lookup_app_l; [|rewrite length_replicate; lia].
    rewrite lookup_replicate_2 by lia.
    by rewrite val_at_missing.
Qed.

Lemma right_align4_entries (shape : list Z) :
  (length shape <= 4)%nat ->
  right_align4 shape =
    [val_at (-4) shape; val_at (-3) shape; val_at (-2) shape; val_at (-1) shape].
Proof.
  intros Hs. apply list_eq. intros i.
  destruct i as [|[|[|[|i]]]].
  - apply (val_at_right_align4 shape 4); lia.
  - apply (val_at_right_align4 shape 3); lia.
  - apply (val_at_right_align4 shape 2); lia.
  - apply (val_at_right_align4 shape 1); lia.
  - simpl. apply lookup_ge_None_2. rewrite right_align4_length; lia.
Qed.


(** ** Layout calculator: the physical shape *)

Lemma calc_gpu_sizes_buffer_eq (shape : list Z) (P : GPUMemoryLayout) :
  calc_gpu_sizes shape P kBuffer =
  Ok (if (packed_dim_from_end P <=? length shape)%nat
      then <[(length shape - packed_dim_from_end P)%nat :=
               align_up (val_at (- Z.of_nat (packed_dim_from_end P)) shape) 4]>
             shape
      else shape).
Proof.
  unfold calc_gpu_sizes. simpl. rewrite copy_sizes_id. by destruct P.
Qed.

Lemma calc_gpu_sizes_texture_eq (shape : list Z) (P : GPUMemoryLayout)
    (K : StorageType) :
  is_buffer K = false -> (length shape <= 4)%nat ->
  calc_gpu_sizes shape P K =
  Ok (<[(4 - packed_dim_from_end P)%nat :=
          align_up (val_at (- Z.of_nat (packed_dim_from_end P)) shape) 4]>
        (right_align4 shape)).
Proof.
  intros HK Hs. unfold calc_gpu_sizes. rewrite HK.
  destruct (Nat.leb_spec (length shape) 4) as [_|?]; [|lia].
  rewrite right_align4_entries by done.
  by destruct P.
Qed.

(** The two examples of section 8. *)
Example calc_gpu_sizes_nchw :
  calc_gpu_sizes [1; 3; 8; 8] kChannelsPacked kTexture3D = Ok [1; 4; 8; 8].
Proof. reflexivity. Qed.

Example calc_gpu_sizes_vector :
  calc_gpu_sizes [10] kWidthPacked kBuffer = Ok [12].
Proof. reflexivity. Qed.

(** C4. For linear-buffer storage the physical shape has the rank of the
    logical shape and the same entries, except that the entry the packing
    policy selects from the end (width 1, height 2, channels 3) is rounded up
    to the next multiple of 4 when the shape has that many dimensions; a
    shape with fewer dimensions is returned as it is. *)
Theorem calc_gpu_sizes_buffer (shape : list Z) (P : GPUMemoryLayout) :
  exists G,
    calc_gpu_sizes shape P kBuffer = Ok G /\
    length G = length shape /\
    ((packed_dim_from_end P <= length shape)%nat ->
       (forall i, i <> (length shape - packed_dim_from_end P)%nat ->
                  G !! i = shape !! i) /\
       exists x r,
         shape !! (length shape - packed_dim_from_end P)%nat = Some x /\
         G !! (length shape - packed_dim_from_end P)%nat = Some r /\
         is_round_up4 x r) /\
    ((length shape < packed_dim_from_end P)%nat -> G = shape).
Proof.
  eexists. split; [apply calc_gpu_sizes_buffer_eq|].
  set (k := packed_dim_from_end P).
  assert (1 <= k)%nat by (subst k; destruct P; simpl; lia).
  destruct (Nat.leb_spec k (length shape)) as [Hk|Hk].
  - split; [by rewrite length_insert|]. split; [|lia].
    intros _. split.
    + intros i Hi. by rewrite list_lookup_insert_ne.
    + destruct (lookup_lt_is_Some_2 shape (length shape - k)) as [x Hx]; [lia|].
      exists x, (align_up x 4). split; [done|].
      rewrite (val_at_from_end shape k x); [|lia|done].
      split; [|apply align_up_round_up4].
      apply list_lookup_insert_eq. lia.
  - split; [done|]. split; [lia|done].
Qed.

(** C5. For an image storage kind a logical shape of rank above 4 is
    rejected with an InvalidArgument error; otherwise the physical shape has
    exactly 4 entries, those of the shape right-aligned into (batch, channel,
    height, width) with 1 for the missing leading dimensions, the entry of
    the packed axis being rounded up to the next multiple of 4. *)
Theorem calc_gpu_sizes_texture (shape : list Z) (P : GPUMemoryLayout)
    (K : StorageType) :
  is_buffer K = false ->
  ((4 < length shape)%nat ->
     exists msg, calc_gpu_sizes shape P K = Err (InvalidArgument msg)) /\
  ((length shape <= 4)%nat ->
     exists G,
       calc_gpu_sizes shape P K = Ok G /\
       length G = 4%nat /\
       (forall j, j <> (4 - packed_dim_from_end P)%nat ->
                  G !! j = right_align4 shape !! j) /\
       exists x r,
         right_align4 shape !! (4 - packed_dim_from_end P)%nat = Some x /\
         G !! (4 - packed_dim_from_end P)%nat = Some r /\
         is_round_up4 x r).
Proof.
  intros HK. split.
  - intros Hs. unfold calc_gpu_sizes. rewrite HK.
    destruct (Nat.leb_spec (length shape) 4) as [?|_]; [lia|].
    simpl. eauto.
  - intros Hs. eexists. split; [by apply calc_gpu_sizes_texture_eq|].
    set (k := packed_dim_from_end P).
    assert (1 <= k <= 3)%nat by (subst k; destruct P; simpl; lia).
    split; [by rewrite length_insert, right_align4_length|].
    split; [intros j Hj; by rewrite list_lookup_insert_ne|].
    exists (val_at (- Z.of_nat k) shape),
           (align_up (val_at (- Z.of_nat k) shape) 4).
    split; [apply val_at_right_align4; lia|].
    split; [|apply align_up_round_up4].
    apply list_lookup_insert_eq. rewrite right_align4_length; lia.
Qed.

(** ** Layout calculator: the image extent *)

Section ImageExtent.

Variable safe_downcast_u32 : Z -> result Z.

(** A value that fits is cast to itself. *)
Hypothesis safe_downcast_u32_in_range :
  forall v, in_u32 v -> safe_downcast_u32 v = Ok v.

(** A cast that returns has kept the value. *)
Hypothesis safe_downcast_u32_sound :
  forall v u, safe_downcast_u32 v = Ok u -> u = v.


(** C7. For a logical shape of rank at most 4 and an image storage kind, the
    packed axis of the physical shape is a multiple of 4, so the extent
    computation on that physical shape never fails a divisibility check:
    whenever the four casts return it returns the extent, and an error, if
    any, is the error of a cast. *)
Theorem packed_axis_division_exact (shape : list Z) (P : GPUMemoryLayout)
    (K : StorageType) :
  is_buffer K = false -> (length shape <= 4)%nat ->
  exists G,
    calc_gpu_sizes shape P K = Ok G /\
    val_at (- Z.of_nat (packed_dim_from_end P)) G mod 4 = 0 /\
    (forall w h c b,
       safe_downcast_u32 (val_at (-1) G) = Ok w ->
       safe_downcast_u32 (val_at (-2) G) = Ok h ->
       safe_downcast_u32 (val_at (-3) G) = Ok c ->
       safe_downcast_u32 (val_at (-4) G) = Ok b ->
       create_image_extents safe_downcast_u32 G K P =
         Ok (texel_extent P b c h w)) /\
    (forall e,
       create_image_extents safe_downcast_u32 G K P = Err e ->
       exists v, In v G /\ safe_downcast_u32 v = Err e).
Proof.
  intros HK Hshape. eexists. split; [by apply calc_gpu_sizes_texture_eq|].
  destruct (list_length_4 (right_align4 shape)) as (b0 & c0 & h0 & w0 & HR);
    [by apply right_align4_length|].
  rewrite HR.
  set (a := align_up _ 4).
  assert (a mod 4 = 0) as Ha by (apply align_up_multiple; lia).
  clearbody a.
  unfold create_image_extents. rewrite HK.
  destruct P; simpl packed_dim_from_end; simpl insert;
    (split; [exact Ha|]); simpl length; simpl VK_CHECK_COND; simpl rbind;
    rewrite ?(proj1 (val_at_4 _ _ _ _)), ?(proj1 (proj2 (val_at_4 _ _ _ _))),
      ?(proj1 (proj2 (proj2 (val_at_4 _ _ _ _)))),
      ?(proj2 (proj2 (proj2 (val_at_4 _ _ _ _)))).
  all: split.
  all: try (intros w h c b Hw Hh Hc Hb; rewrite Hw, Hh, Hc, Hb; simpl rbind;
            apply safe_downcast_u32_sound in Hw, Hh, Hc, Hb; subst;
            rewrite Ha; done).
  all: intros e;
    repeat match goal with
    | |- context [safe_downcast_u32 ?v] =>
        let E := fresh "E" in
        destruct (safe_downcast_u32 v) as [?u|?e'] eqn:E; simpl rbind;
        [ apply safe_downcast_u32_sound in E; subst
        | intros [= <-]; exists v; split; [simpl; tauto | done] ]
    end.
  all: rewrite Ha; simpl; done.
Qed.

End ImageExtent.

(** ** Storage: the hazard transition *)

Lemma lor_superset (a b : Z) : Z.land a (Z.lor a b) = a.
Proof.
  apply Z.bits_inj'. intros n Hn.
  rewrite Z.land_spec, Z.lor_spec.
  by destruct (Z.testbit a n), (Z.testbit b n).
Qed.

Lemma lor_testbit_mono (a b n : Z) :
  Z.testbit a n = true -> Z.testbit (Z.lor a b) n = true.
Proof. intros H. by rewrite Z.lor_spec, H. Qed.

Section Transition.

Variable vk_stage : Z -> Z.
Variable vk_access : Z -> Z -> Z.
Variable vk_layout : Z -> Z -> Z.
Variable WRITE : Z.

Local Abbreviation run_transition :=
  (transition vk_stage vk_access vk_layout WRITE).
Local Abbreviation prev_written := (prev_written_of WRITE).
Local Abbreviation layout_changed := (layout_changed_of vk_layout).

(** Without a hazard the call only records the access. *)
Lemma transition_no_hazard (pb : PipelineBarrier) (cur_stage cur_access : Z)
    (s : vTensorStorage) :
  prev_written s = false ->
  layout_changed cur_stage cur_access s = false ->
  run_transition pb cur_stage cur_access s =
    (with_last_access (mk_LastAccess cur_stage cur_access) s, pb).
Proof.
  unfold transition, prev_written_of, layout_changed_of.
  intros -> Hl.
  destruct (image_live (image_ s)); simpl in *; [|done].
  by rewrite Hl.
Qed.

(** With a hazard on a live image the call appends one image barrier and
    moves the image to the new layout. *)
Lemma transition_image_hazard (pb : PipelineBarrier) (cur_stage cur_access : Z)
    (s : vTensorStorage) :
  image_live (image_ s) = true ->
  prev_written s || layout_changed cur_stage cur_access s = true ->
  run_transition pb cur_stage cur_access s =
    (with_last_access (mk_LastAccess cur_stage cur_access)
       (with_image (set_layout (vk_layout cur_stage cur_access) (image_ s)) s),
     mk_PipelineBarrier
       (Z.lor (stage_src pb)
          (if 0 =? vk_stage (stage (last_access_ s))
           then VK_PIPELINE_STAGE_TOP_OF_PIPE_BIT
           else vk_stage (stage (last_access_ s))))
       (Z.lor (stage_dst pb)
          (if 0 =? vk_stage cur_stage
           then VK_PIPELINE_STAGE_BOTTOM_OF_PIPE_BIT
           else vk_stage cur_stage))
       (buffers pb)
       (images pb ++
          [mk_ImageMemoryBarrier
             (vk_access (stage (last_access_ s)) (access (last_access_ s)))
             (vk_access cur_stage cur_access)
             (image_layout (image_ s))
             (vk_layout cur_stage cur_access)
             (image_handle (image_ s))])).
Proof.
  unfold transition, prev_written_of, layout_changed_of.
  intros Hlive Hhaz. rewrite Hlive in *. simpl in Hhaz. by rewrite Hhaz.
Qed.

(** With a hazard on a storage whose image is null the call appends a buffer
    barrier when the buffer is live. *)
Lemma transition_buffer_hazard (pb : PipelineBarrier) (cur_stage cur_access : Z)
    (s : vTensorStorage) :
  image_live (image_ s) = false ->
  prev_written s = true ->
  run_transition pb cur_stage cur_access s =
    (with_last_access (mk_LastAccess cur_stage cur_access) s,
     mk_PipelineBarrier
       (Z.lor (stage_src pb)
          (if 0 =? vk_stage (stage (last_access_ s))
           then VK_PIPELINE_STAGE_TOP_OF_PIPE_BIT
           else vk_stage (stage (last_access_ s))))
       (Z.lor (stage_dst pb)
          (if 0 =? vk_stage cur_stage
           then VK_PIPELINE_STAGE_BOTTOM_OF_PIPE_BIT
           else vk_stage cur_stage))
       (if buffer_live (buffer_ s)
        then buffers pb ++
               [mk_BufferMemoryBarrier
                  (vk_access (stage (last_access_ s)) (access (last_access_ s)))
                  (vk_access cur_stage cur_access)
                  (buffer_handle (buffer_ s))]
        else buffers pb)
       (images pb)).
Proof.
  unfold transition, prev_written_of.
  intros Hdead Hw. rewrite Hdead, Hw. simpl.
  by destruct (buffer_live (buffer_ s)).
Qed.

(** The three lemmas cover every state. *)
Lemma transition_cases (cur_stage cur_access : Z) (s : vTensorStorage) :
  (prev_written s = false /\ layout_changed cur_stage cur_access s = false) \/
  (image_live (image_ s) = true /\
   prev_written s || layout_changed cur_stage cur_access s = true) \/
  (image_live (image_ s) = false /\ prev_written s = true).
Proof.
  unfold layout_changed_of.
  destruct (prev_written s), (image_live (image_ s)); simpl; auto.
  destruct (negb _); auto.
Qed.

Lemma transition_last_access (pb : PipelineBarrier)
    (cur_stage cur_access : Z) (s : vTensorStorage) :
  last_access_ (fst (run_transition pb cur_stage cur_access s)) =
  mk_LastAccess cur_stage cur_access.
Proof.
  destruct (transition_cases cur_stage cur_access s)
    as [[Hw Hl]|[[Hi Hh]|[Hi Hw]]].
  - by rewrite transition_no_hazard.
  - by rewrite transition_image_hazard.
  - by rewrite transition_buffer_hazard.
Qed.

Lemma transition_image_live (pb : PipelineBarrier) (cur_stage cur_access : Z)
    (s : vTensorStorage) :
  image_live (image_ (fst (run_transition pb cur_stage cur_access s))) =
  image_live (image_ s).
Proof.
  destruct (transition_cases cur_stage cur_access s)
    as [[Hw Hl]|[[Hi Hh]|[Hi Hw]]].
  - by rewrite transition_no_hazard.
  - by rewrite transition_image_hazard.
  - by rewrite transition_buffer_hazard.
Qed.

(** After any call the image, if live, is in the layout of the call. *)
Lemma transition_layout_settled (pb : PipelineBarrier)
    (cur_stage cur_access : Z) (s : vTensorStorage) :
  layout_changed cur_stage cur_access
    (fst (run_transition pb cur_stage cur_access s)) = false.
Proof.
  destruct (transition_cases cur_stage cur_access s)
    as [[Hw Hl]|[[Hi Hh]|[Hi Hw]]].
  - by rewrite transition_no_hazard.
  - rewrite transition_image_hazard by done.
    unfold layout_changed_of. simpl. rewrite Z.eqb_refl. apply andb_false_r.
  - rewrite transition_buffer_hazard by done.
    unfold layout_changed_of. simpl. by rewrite Hi.
Qed.

Lemma app_singleton_neq {A} (l : list A) (x : A) : l <> l ++ [x].
Proof.
  intros H. apply (f_equal length) in H. rewrite length_app in H. simpl in H. lia.
Qed.

(** C2. A call appends exactly one barrier record, an image barrier when the
    image is live and a buffer barrier when instead the buffer is live, if
    the previous access had the write bit or the layout of the call differs
    from the current layout of the image; it appends nothing, and leaves the
    accumulator as it was, if the previous access was read-only and the
    layout is unchanged.  In particular a second call with the same read-only
    stage and access appends nothing. *)
Theorem transition_barrier_iff_hazard (pb : PipelineBarrier)
    (cur_stage cur_access : Z) (s : vTensorStorage) :
  let r := run_transition pb cur_stage cur_access s in
  (prev_written s || layout_changed cur_stage cur_access s = true ->
     (image_live (image_ s) = true ->
        images (snd r) =
          images pb ++
            [mk_ImageMemoryBarrier
               (vk_access (stage (last_access_ s)) (access (last_access_ s)))
               (vk_access cur_stage cur_access)
               (image_layout (image_ s))
               (vk_layout cur_stage cur_access)
               (image_handle (image_ s))] /\
        buffers (snd r) = buffers pb) /\
     (image_live (image_ s) = false -> buffer_live (buffer_ s) = true ->
        buffers (snd r) =
          buffers pb ++
            [mk_BufferMemoryBarrier
               (vk_access (stage (last_access_ s)) (access (last_access_ s)))
               (vk_access cur_stage cur_access)
               (buffer_handle (buffer_ s))] /\
        images (snd r) = images pb)) /\
  (prev_written s = false ->
   layout_changed cur_stage cur_access s = false ->
     snd r = pb) /\
  (Z.land cur_access WRITE = 0 ->
     forall pb2 : PipelineBarrier,
       snd (run_transition pb2 cur_stage cur_access (fst r)) = pb2).
Proof.
  intros r. subst r. split; [|split].
  - intros Hhaz. split.
    + intros Hlive. by rewrite transition_image_hazard.
    + intros Hdead Hlive.
      assert (prev_written s = true) as Hw.
      { unfold layout_changed_of in Hhaz. rewrite Hdead in Hhaz.
        simpl in Hhaz. by rewrite orb_false_r in Hhaz. }
      rewrite transition_buffer_hazard by done. simpl. by rewrite Hlive.
  - intros Hw0 Hl0. by rewrite transition_no_hazard.
  - intros Hro pb2. rewrite transition_no_hazard; [done| |].
    + unfold prev_written_of. rewrite transition_last_access. simpl.
      by rewrite Hro.
    + apply transition_layout_settled.
Qed.

(** C3. Every call leaves the last access equal to the stage and access of
    the call.  Whenever the call appends an image barrier, the barrier ends
    in the layout of the call, the image records that layout when the call
    returns, and an image barrier appended by the next call starts from it. *)
Theorem transition_records_access_and_layout (pb : PipelineBarrier)
    (cur_stage cur_access : Z) (s : vTensorStorage) :
  let r := run_transition pb cur_stage cur_access s in
  last_access_ (fst r) = mk_LastAccess cur_stage cur_access /\
  (forall b,
     images (snd r) = images pb ++ [b] ->
     img_new_layout b = vk_layout cur_stage cur_access /\
     image_layout (image_ (fst r)) = vk_layout cur_stage cur_access /\
     (forall pb2 stage2 access2 b2,
        images (snd (run_transition pb2 stage2 access2 (fst r))) =
          images pb2 ++ [b2] ->
        img_old_layout b2 = vk_layout cur_stage cur_access)).
Proof.
  intros r. subst r. split; [apply transition_last_access|].
  intros b.
  destruct (transition_cases cur_stage cur_access s)
    as [[Hw Hl]|[[Hi Hh]|[Hi Hw]]].
  - rewrite transition_no_hazard by done. simpl.
    intros Hb. by apply app_singleton_neq in Hb.
  - rewrite transition_image_hazard by done. simpl.
    intros Hb. apply app_inv_head in Hb. injection Hb as <-.
    split; [done|]. split; [done|].
    intros pb2 stage2 access2 b2.
    set (s1 := with_last_access _ _).
    assert (image_live (image_ s1) = true) as Hi1 by done.
    destruct (transition_cases stage2 access2 s1)
      as [[Hw2 Hl2]|[[_ Hh2]|[Hi2 _]]]; [| |congruence].
    + rewrite transition_no_hazard by done. simpl.
      intros Hb2. by apply app_singleton_neq in Hb2.
    + rewrite transition_image_hazard by done. simpl.
      intros Hb2. apply app_inv_head in Hb2. by injection Hb2 as <-.
  - rewrite transition_buffer_hazard by done. simpl.
    intros Hb. by apply app_singleton_neq in Hb.
Qed.

(** C10. A call only extends the accumulator: the image and buffer barrier
    lists after the call are the lists before it followed by at most one new
    record in total, and the aggregate source and destination stage masks
    keep every bit they had. *)
Theorem transition_extends_accumulator (pb : PipelineBarrier)
    (cur_stage cur_access : Z) (s : vTensorStorage) :
  let pb' := snd (run_transition pb cur_stage cur_access s) in
  exists new_images new_buffers,
    images pb' = images pb ++ new_images /\
    buffers pb' = buffers pb ++ new_buffers /\
    (length new_images + length new_buffers <= 1)%nat /\
    Z.land (stage_src pb) (stage_src pb') = stage_src pb /\
    Z.land (stage_dst pb) (stage_dst pb') = stage_dst pb /\
    (forall n, Z.testbit (stage_src pb) n = true ->
               Z.testbit (stage_src pb') n = true) /\
    (forall n, Z.testbit (stage_dst pb) n = true ->
               Z.testbit (stage_dst pb') n = true).
Proof.
  intros pb'. subst pb'.
  destruct (transition_cases cur_stage cur_access s)
    as [[Hw Hl]|[[Hi Hh]|[Hi Hw]]].
  - rewrite transition_no_hazard by done. simpl.
    exists [], []. rewrite !app_nil_r, !Z.land_diag. simpl.
    repeat split; auto; lia.
  - rewrite transition_image_hazard by done. simpl.
    eexists _, []. split; [reflexivity|]. split; [by rewrite app_nil_r|].
    repeat split; auto using lor_superset, lor_testbit_mono; simpl; lia.
  - rewrite transition_buffer_hazard by done. simpl.
    destruct (buffer_live (buffer_ s)).
    + eexists [], _. split; [by rewrite app_nil_r|]. split; [reflexivity|].
      repeat split; auto using lor_superset, lor_testbit_mono; simpl; lia.
    + exists [], []. rewrite !app_nil_r. simpl.
      repeat split; auto using lor_superset, lor_testbit_mono; simpl; lia.
Qed.

End Transition.

(** ** Storage: the live resource *)


Section Allocator.

Variable safe_downcast_u32 : Z -> result Z.
Variable Context : Type.
Variable ScalarType : Type.
Variable to_vkformat : ScalarType -> Z.
Variable element_size : ScalarType -> Z.
Variable vma_create_image : uvec3 -> Z -> Z -> Z -> bool -> M Context VulkanImage.
Variable vma_create_storage_buffer : Z -> bool -> M Context VulkanBuffer.
Variable register_image_cleanup : VulkanImage -> Context -> Context * VulkanImage.
Variable register_buffer_cleanup : VulkanBuffer -> Context -> Context * VulkanBuffer.

(** What the device allocator returns is a live resource. *)
Hypothesis vma_create_image_live :
  forall e f t v a c c' i,
    vma_create_image e f t v a c = (c', Ok i) -> image_live i = true.

Hypothesis vma_create_storage_buffer_live :
  forall n a c c' b,
    vma_create_storage_buffer n a c = (c', Ok b) -> buffer_live b = true.

Local Abbreviation new_image := (allocate_image Context vma_create_image).
Local Abbreviation new_buffer :=
  (allocate_buffer Context ScalarType element_size vma_create_storage_buffer).






End Allocator.

(** ** Tensor: the resize operations *)

Section Resize.

Variable safe_downcast_u32 : Z -> result Z.
Variable safe_downcast_i32 : Z -> result Z.
Variable ScalarType : Type.
Variable ivec4 : Type.
Variable make_whcn_ivec4 : list Z -> ivec4.

Local Abbreviation tensor := (vTensor ScalarType ivec4).
Local Abbreviation run_update_size_metadata :=
  (update_size_metadata safe_downcast_u32 safe_downcast_i32 make_whcn_ivec4).
Local Abbreviation run_virtual_resize :=
  (virtual_resize safe_downcast_u32 safe_downcast_i32 make_whcn_ivec4).

Lemma resize_frame_refl (t : tensor) : resize_frame t t.
Proof. unfold resize_frame. tauto. Qed.

Lemma resize_frame_trans (t1 t2 t3 : tensor) :
  resize_frame t1 t2 -> resize_frame t2 t3 -> resize_frame t1 t3.
Proof.
  unfold resize_frame.
  intros (-> & -> & -> & ? & ? & ?) (-> & -> & -> & ? & ? & ?). auto 10.
Qed.

(** Sequencing keeps a transitive relation between the object before and
    after, whatever the outcome. *)
Lemma mbind_frame {St A B : Type} (R : St -> St -> Prop)
    (m : M St A) (k : A -> M St B) (s : St) :
  (forall x y z, R x y -> R y z -> R x z) ->
  R s (fst (m s)) ->
  (forall a s', m s = (s', Ok a) -> R s' (fst (k a s'))) ->
  R s (fst (mbind m k s)).
Proof.
  intros Htrans Hm Hk. unfold mbind.
  destruct (m s) as [s' [a|e]]; simpl in *; eauto.
Qed.

Ltac frame_leaf :=
  unfold mget, mmodify, mlift, mret, resize_frame; simpl; auto 10.

(** A step whose result is not the state: the state after is arbitrary. *)
Ltac frame_step :=
  apply mbind_frame; [exact resize_frame_trans | | intros ? ? _].

(** Reading the state binds the state itself. *)
Ltac frame_get :=
  apply mbind_frame;
  [ exact resize_frame_trans
  | frame_leaf
  | let H := fresh in
    intros ? ? H; unfold mget in H; injection H as <- <- ].

(** A pure computation leaves the state where it is. *)
Ltac frame_lift :=
  apply mbind_frame;
  [ exact resize_frame_trans
  | frame_leaf
  | let H := fresh in
    intros ? ? H; unfold mlift in H; injection H as <- _ ].

Lemma update_size_metadata_frame (new_sizes : list Z) (t : tensor) :
  resize_frame t (fst (run_update_size_metadata new_sizes t)).
Proof.
  unfold update_size_metadata.
  frame_step; [frame_leaf|].
  frame_get.
  frame_step; [frame_leaf|].
  frame_step; [frame_leaf|].
  frame_get.
  frame_step.
  { destruct (negb _); simpl; [|frame_leaf].
    frame_step; [frame_leaf|].
    frame_step; [frame_leaf|]. frame_leaf. }
  frame_get.
  frame_step.
  { destruct (sizes_uniform_ _) eqn:E; simpl; frame_leaf.
    rewrite E. repeat split; auto; discriminate. }
  frame_get.
  frame_step.
  { destruct (texture_limits_uniform_ _) eqn:E; simpl; frame_leaf.
    rewrite E. repeat split; auto; discriminate. }
  frame_get.
  destruct (packed_dim_meta_ _) eqn:E; simpl; [|frame_leaf].
  frame_lift.
  frame_leaf. rewrite E. repeat split; auto; discriminate.
Qed.

Lemma virtual_resize_frame (new_sizes : list Z) (t : tensor) :
  resize_frame t (fst (run_virtual_resize new_sizes t)).
Proof.
  unfold virtual_resize.
  frame_get.
  frame_step.
  { destruct (negb _); simpl; [|frame_leaf].
    frame_lift. frame_leaf. }
  apply update_size_metadata_frame.
Qed.

(** C8. update_size_metadata and virtual_resize leave the physical resource
    untouched: the image, the buffer, the allocated extents and the buffer
    length of the storage are the same before and after the call, as are the
    whole storage, the element type and the packing policy, and a metadata
    buffer that did not exist is not created; this holds whatever the outcome
    of the call, in particular when it succeeds. *)
Theorem resize_leaves_resource_untouched (new_sizes : list Z) (t : tensor) :
  let unchanged (t' : tensor) :=
    image_ (storage_ t') = image_ (storage_ t) /\
    buffer_ (storage_ t') = buffer_ (storage_ t) /\
    extents_ (storage_ t') = extents_ (storage_ t) /\
    buffer_length_ (storage_ t') = buffer_length_ (storage_ t) /\
    resize_frame t t' in
  unchanged (fst (run_update_size_metadata new_sizes t)) /\
  unchanged (fst (run_virtual_resize new_sizes t)).
Proof.
  intros unchanged. subst unchanged. simpl.
  pose proof (update_size_metadata_frame new_sizes t) as Hu.
  pose proof (virtual_resize_frame new_sizes t) as Hv.
  destruct Hu as [Eu Hu'], Hv as [Ev Hv'].
  rewrite Eu, Ev. unfold resize_frame. rewrite Eu, Ev. tauto.
Qed.

(** C1 (what the code does). For image storage the size check of
    virtual_resize is made on the extent of the physical shape the tensor has
    before the call: when that extent fits the allocated extent the call is
    update_size_metadata, whatever the new sizes are, and when it does not the
    call is rejected, whatever the new sizes are. *)
Theorem virtual_resize_checks_stale_shape (new_sizes : list Z) (t : tensor)
    (e : uvec3) :
  is_buffer (storage_type t) = false ->
  create_image_extents safe_downcast_u32 (gpu_sizes_ t) (storage_type t)
    (memory_layout_ t) = Ok e ->
  (uvec3_le e (extents t) ->
     run_virtual_resize new_sizes t = run_update_size_metadata new_sizes t) /\
  (~ uvec3_le e (extents t) ->
     run_virtual_resize new_sizes t =
       (t, Err (InvalidArgument
                  "Cannot use virtual resize if new sizes requires a larger texture."))).
Proof.
  intros HK He. unfold virtual_resize, uvec3_le, mbind, mget, mwhen, mlift.
  rewrite HK, He. simpl.
  destruct (Z.leb_spec (data0 e) (data0 (extents t)));
    destruct (Z.leb_spec (data1 e) (data1 (extents t)));
    destruct (Z.leb_spec (data2 e) (data2 (extents t)));
    simpl; split; intros; try done; lia.
Qed.

(** For buffer storage virtual_resize makes no check at all. *)
Lemma virtual_resize_buffer (new_sizes : list Z) (t : tensor) :
  is_buffer (storage_type t) = true ->
  run_virtual_resize new_sizes t = run_update_size_metadata new_sizes t.
Proof.
  intros HK. unfold virtual_resize, mbind, mget, mwhen, mret.
  by rewrite HK.
Qed.

End Resize.

(** * The properties on the reference device *)

Lemma ref_safe_downcast_u32_in_range (v : Z) :
  in_u32 v -> ref_safe_downcast_u32 v = Ok v.
Proof.
  unfold in_u32, ref_safe_downcast_u32. intros Hv.
  destruct (Z.leb_spec 0 v); [|lia].
  destruct (Z.ltb_spec v (2 ^ 32)); [done|lia].
Qed.

Lemma ref_safe_downcast_u32_sound (v u : Z) :
  ref_safe_downcast_u32 v = Ok u -> u = v.
Proof.
  unfold ref_safe_downcast_u32.
  destruct (_ && _); [|done]. by intros [= ->].
Qed.





Example ref_texture_tensor_constructed :
  ref_vTensor_new [1; 1; 4; 4] ref_kFloat kTexture3D kWidthPacked true
    ref_context
  = (mk_RefContext 2 [] [], Ok ref_texture_tensor).
Proof. reflexivity. Qed.

(** The first example of section 8: the extent of the physical shape
    [1; 4; 8; 8], channels-packed. *)
Example create_image_extents_nchw :
  create_image_extents ref_safe_downcast_u32 [1; 4; 8; 8] kTexture3D
    kChannelsPacked = Ok (mk_uvec3 8 8 1).
Proof. reflexivity. Qed.

(** A write, then two reads of the texture: the first read follows a write
    and changes the layout, the second appends nothing. *)
Example ref_transition_write_read_read :
  let '(s1, pb1) := ref_transition empty_barrier ref_COMPUTE ref_WRITE
                      ref_texture_storage in
  let '(s2, pb2) := ref_transition pb1 ref_COMPUTE ref_READ s1 in
  let '(s3, pb3) := ref_transition pb2 ref_COMPUTE ref_READ s2 in
  length (images pb1) = 1%nat /\ length (images pb2) = 2%nat /\ pb3 = pb2 /\
  image_layout (image_ s3) = 5 /\ last_access_ s3 = mk_LastAccess 1 1.
Proof. vm_compute. repeat split; reflexivity. Qed.

Lemma calc_gpu_sizes_texture_witness :
  is_buffer kTexture3D = false /\
  exists G,
    calc_gpu_sizes [1; 3; 8; 8] kChannelsPacked kTexture3D = Ok G /\
    length G = 4%nat.
Proof.
  split; [reflexivity|].
  destruct (calc_gpu_sizes_texture [1; 3; 8; 8] kChannelsPacked kTexture3D
              eq_refl) as [_ H].
  destruct H as (G & HG & HL & _); [simpl; lia|].
  exists G. split; assumption.
Defined.


Lemma packed_axis_division_exact_witness :
  exists G,
    calc_gpu_sizes [1; 3; 8; 8] kChannelsPacked kTexture3D = Ok G /\
    val_at (-3) G mod 4 = 0.
Proof.
  destruct (packed_axis_division_exact ref_safe_downcast_u32
              ref_safe_downcast_u32_sound [1; 3; 8; 8] kChannelsPacked
              kTexture3D eq_refl ltac:(simpl; lia)) as (G & H1 & H2 & _).
  exists G. split; assumption.
Defined.


(** On the tensor of sizes [1; 1; 4; 4], whose texture is one texel wide
    and four high, a resize to [1; 1; 8; 8], which would need a texture two
    texels wide and eight high, is accepted, and the texture limits then
    exceed the allocated extent. *)
Lemma virtual_resize_accepts_larger_shape :
  let r := ref_virtual_resize [1; 1; 8; 8] ref_texture_tensor in
  snd r = Ok tt /\
  texture_limits_ (fst r) = mk_ivec3 2 8 1 /\
  extents (fst r) = mk_uvec3 1 4 1.
Proof.
  destruct (virtual_resize_checks_stale_shape ref_safe_downcast_u32
              ref_safe_downcast_i32 RefScalarType (Z * Z * Z * Z)
              ref_make_whcn_ivec4 [1; 1; 8; 8] ref_texture_tensor
              (mk_uvec3 1 4 1) eq_refl eq_refl) as [Hfit _].
  unfold ref_virtual_resize. cbv zeta.
  rewrite Hfit by (unfold uvec3_le; simpl; lia).
  vm_compute. repeat split; reflexivity.
Defined.

(** And from there the resize back to the sizes [1; 1; 4; 4] the texture was
    allocated for is rejected. *)
Example virtual_resize_rejects_fitting_shape :
  let t1 := fst (ref_virtual_resize [1; 1; 8; 8] ref_texture_tensor) in
  snd (ref_virtual_resize [1; 1; 4; 4] t1) =
    Err (InvalidArgument
           "Cannot use virtual resize if new sizes requires a larger texture.").
Proof. reflexivity. Qed.

(** * Further properties of the translation unit *)

(** ** Layout calculator *)

Lemma align_up_fixed (n : Z) : n mod 4 = 0 -> align_up n 4 = n.
Proof.
  intros Hn. unfold align_up. Z.to_euclidean_division_equations. lia.
Qed.

Lemma align_up_idempotent (n : Z) : align_up (align_up n 4) 4 = align_up n 4.
Proof. apply align_up_fixed, align_up_multiple. lia. Qed.

Lemma align_up_ceil_div4 (n : Z) : align_up n 4 / 4 = ceil_div4 n.
Proof.
  unfold align_up, ceil_div4. replace (n + 4 - 1) with (n + 3) by lia.
  apply Z.div_mul. lia.
Qed.

Lemma packed_dim_from_end_range (P : GPUMemoryLayout) :
  (1 <= packed_dim_from_end P <= 3)%nat.
Proof. destruct P; simpl; lia. Qed.

Lemma right_align4_full (G : list Z) : length G = 4%nat -> right_align4 G = G.
Proof. intros HG. unfold right_align4. by rewrite HG. Qed.

Lemma val_at_insert_from_end (l : list Z) (k : nat) (a : Z) :
  (1 <= k <= length l)%nat ->
  val_at (- Z.of_nat k) (<[(length l - k)%nat := a]> l) = a.
Proof.
  intros Hk.
  pose proof (val_at_from_end (<[(length l - k)%nat := a]> l) k a) as H.
  rewrite length_insert in H. apply H; [lia|].
  apply list_lookup_insert_eq. lia.
Qed.

(** A shape whose packed entry is already a multiple of 4 is its own
    physical shape. *)
Lemma calc_gpu_sizes_buffer_fixed (G : list Z) (P : GPUMemoryLayout) (a : Z) :
  ((packed_dim_from_end P <= length G)%nat ->
   G !! (length G - packed_dim_from_end P)%nat = Some a /\ a mod 4 = 0) ->
  calc_gpu_sizes G P kBuffer = Ok G.
Proof.
  intros Ha. pose proof (packed_dim_from_end_range P) as Hk.
  rewrite calc_gpu_sizes_buffer_eq.
  destruct (Nat.leb_spec (packed_dim_from_end P) (length G)) as [Hle|Hlt];
    [|done].
  destruct (Ha Hle) as [Hl Hm].
  rewrite (val_at_from_end G _ a); [|lia|done].
  by rewrite align_up_fixed, list_insert_id.
Qed.

Lemma calc_gpu_sizes_texture_fixed (G : list Z) (P : GPUMemoryLayout)
    (K : StorageType) (a : Z) :
  is_buffer K = false -> length G = 4%nat ->
  G !! (4 - packed_dim_from_end P)%nat = Some a -> a mod 4 = 0 ->
  calc_gpu_sizes G P K = Ok G.
Proof.
  intros HK HG Hl Hm. pose proof (packed_dim_from_end_range P) as Hk.
  rewrite calc_gpu_sizes_texture_eq; [|done|lia].
  rewrite right_align4_full by done.
  rewrite (val_at_from_end G _ a); [|lia|by rewrite HG].
  by rewrite align_up_fixed, list_insert_id.
Qed.

(** X1. A physical shape is its own physical shape: calc_gpu_sizes applied
    to a shape it has returned, with the same packing and storage type,
    returns that shape again. *)
Theorem calc_gpu_sizes_idempotent (shape G : list Z) (P : GPUMemoryLayout)
    (K : StorageType) :
  calc_gpu_sizes shape P K = Ok G -> calc_gpu_sizes G P K = Ok G.
Proof.
  pose proof (packed_dim_from_end_range P) as Hk.
  destruct (is_buffer K) eqn:HK.
  - destruct K; try discriminate.
    rewrite calc_gpu_sizes_buffer_eq.
    destruct (Nat.leb_spec (packed_dim_from_end P) (length shape)) as [Hle|Hlt];
      intros [= <-].
    + eapply calc_gpu_sizes_buffer_fixed. rewrite length_insert. intros _.
      split; [apply list_lookup_insert_eq; lia|].
      apply align_up_multiple. lia.
    + apply (calc_gpu_sizes_buffer_fixed _ _ 0). lia.
  - destruct (Nat.leb_spec (length shape) 4) as [Hs|Hs].
    + rewrite calc_gpu_sizes_texture_eq by done.
      intros [= <-].
      pose proof (right_align4_length shape Hs) as HR.
      eapply calc_gpu_sizes_texture_fixed; [done|by rewrite length_insert| |].
      * apply list_lookup_insert_eq. lia.
      * apply align_up_multiple. lia.
    + unfold calc_gpu_sizes. rewrite HK.
      destruct (Nat.leb_spec (length shape) 4); [lia|]. done.
Qed.






Section MoreExtents.

Variable safe_downcast_u32 : Z -> result Z.

Hypothesis safe_downcast_u32_in_range :
  forall v, in_u32 v -> safe_downcast_u32 v = Ok v.

(** X3. For an image storage kind and a logical shape whose right-aligned
    dimensions are (b, c, h, w), all fitting 32 bits after rounding, the
    extent of the physical shape is {w, h, b * c} with the packed dimension
    d replaced by (d + 3) / 4, the depth being the 32-bit product. *)
Theorem image_extents_of_shape (shape : list Z) (P : GPUMemoryLayout)
    (K : StorageType) (b c h w : Z) :
  is_buffer K = false ->
  right_align4 shape = [b; c; h; w] ->
  Forall in_u32 shape ->
  in_u32 (align_up (packed_axis P b c h w) 4) ->
  exists G,
    calc_gpu_sizes shape P K = Ok G /\
    create_image_extents safe_downcast_u32 G K P = Ok (shape_extent P b c h w).
Proof.
  intros HK HR Hs Ha.
  assert (length shape <= 4)%nat as Hl.
  { apply (f_equal length) in HR. unfold right_align4 in HR.
    rewrite length_app, length_replicate in HR. simpl in HR. lia. }
  eexists. split; [by apply calc_gpu_sizes_texture_eq|].
  assert (Forall in_u32 [b; c; h; w]) as HF.
  { rewrite <- HR. unfold right_align4. apply Forall_app. split; [|done].
    apply Forall_replicate. unfold in_u32. lia. }
  pose proof (packed_dim_from_end_range P) as Hk.
  pose proof (val_at_right_align4 shape (packed_dim_from_end P) Hl
                ltac:(lia)) as Hx.
  rewrite HR in *.
  repeat match goal with
         | H : Forall _ (_ :: _) |- _ => apply Forall_cons in H as [? H]
         end.
  unfold create_image_extents. rewrite HK.
  destruct P; simpl in Hx, Ha |- *; injection Hx as <-;
    rewrite ?(proj1 (val_at_4 _ _ _ _)), ?(proj1 (proj2 (val_at_4 _ _ _ _))),
      ?(proj1 (proj2 (proj2 (val_at_4 _ _ _ _)))),
      ?(proj2 (proj2 (proj2 (val_at_4 _ _ _ _))));
    rewrite !safe_downcast_u32_in_range by done; simpl;
    rewrite align_up_multiple by lia; simpl;
    unfold shape_extent; by rewrite align_up_ceil_div4.
Qed.

End MoreExtents.

(** ** Transition *)

Section MoreTransition.

Variable vk_stage : Z -> Z.
Variable vk_access : Z -> Z -> Z.
Variable vk_layout : Z -> Z -> Z.
Variable WRITE : Z.

Local Abbreviation run_transition :=
  (transition vk_stage vk_access vk_layout WRITE).
Local Abbreviation prev_written := (prev_written_of WRITE).
Local Abbreviation layout_changed := (layout_changed_of vk_layout).

Local Abbreviation no_hazard := (transition_no_hazard vk_stage vk_access vk_layout WRITE).
Local Abbreviation image_hazard := (transition_image_hazard vk_stage vk_access vk_layout WRITE).
Local Abbreviation buffer_hazard := (transition_buffer_hazard vk_stage vk_access vk_layout WRITE).
Local Abbreviation hazard_cases := (transition_cases vk_layout WRITE).

(** X4. A transition changes the last access and the layout of the image
    only: storage type, extents, buffer length, the buffer, the handle of the
    image and its memory ownership are kept, and so is the invariant that
    exactly the resource of the storage type is live. *)
Theorem transition_keeps_resources (pb : PipelineBarrier)
    (cur_stage cur_access : Z) (s : vTensorStorage) :
  let s' := fst (run_transition pb cur_stage cur_access s) in
  storage_type_ s' = storage_type_ s /\
  extents_ s' = extents_ s /\
  buffer_length_ s' = buffer_length_ s /\
  buffer_ s' = buffer_ s /\
  image_handle (image_ s') = image_handle (image_ s) /\
  image_owns_memory (image_ s') = image_owns_memory (image_ s) /\
  (storage_inv s -> storage_inv s').
Proof.
  intros s'. subst s'.
  destruct (hazard_cases cur_stage cur_access s)
    as [[Hw Hl]|[[Hi Hh]|[Hi Hw]]].
  - by rewrite no_hazard.
  - rewrite image_hazard by done. simpl. repeat split; try done.
    unfold storage_inv. simpl.
    destruct (is_buffer (storage_type_ s)); [|done].
    intros [Hnull _]. rewrite Hnull in Hi. done.
  - by rewrite buffer_hazard.
Qed.

(** X5. Whenever there is a hazard the aggregate source and destination
    stage masks are non-zero after the call; a previous stage that maps to no
    pipeline stage sets the top-of-pipe bit and a current stage that maps to
    none sets the bottom-of-pipe bit. *)
Theorem transition_stage_masks_nonzero (pb : PipelineBarrier)
    (cur_stage cur_access : Z) (s : vTensorStorage) :
  prev_written s || layout_changed cur_stage cur_access s = true ->
  let pb' := snd (run_transition pb cur_stage cur_access s) in
  stage_src pb' <> 0 /\ stage_dst pb' <> 0 /\
  (vk_stage (stage (last_access_ s)) = 0 ->
     Z.testbit (stage_src pb') 0 = true) /\
  (vk_stage cur_stage = 0 -> Z.testbit (stage_dst pb') 13 = true).
Proof.
  intros Hhaz pb'. subst pb'.
  assert (forall a b, b <> 0 -> Z.lor a b <> 0) as Hlor.
  { intros a b Hb H. apply Z.lor_eq_0_iff in H. tauto. }
  assert (forall x, (if 0 =? x then VK_PIPELINE_STAGE_TOP_OF_PIPE_BIT else x)
                    <> 0) as Hsrc.
  { intros x. destruct (Z.eqb_spec 0 x); [done|congruence]. }
  assert (forall x, (if 0 =? x then VK_PIPELINE_STAGE_BOTTOM_OF_PIPE_BIT else x)
                    <> 0) as Hdst.
  { intros x. destruct (Z.eqb_spec 0 x); [done|congruence]. }
  assert (forall a x, x = 0 ->
            Z.testbit (Z.lor a (if 0 =? x
                                then VK_PIPELINE_STAGE_TOP_OF_PIPE_BIT
                                else x)) 0 = true) as Htop.
  { intros a x ->. by rewrite Z.lor_spec, orb_true_r. }
  assert (forall a x, x = 0 ->
            Z.testbit (Z.lor a (if 0 =? x
                                then VK_PIPELINE_STAGE_BOTTOM_OF_PIPE_BIT
                                else x)) 13 = true) as Hbot.
  { intros a x ->. by rewrite Z.lor_spec, orb_true_r. }
  destruct (hazard_cases cur_stage cur_access s)
    as [[Hw Hl]|[[Hi Hh]|[Hi Hw]]].
  - rewrite Hw, Hl in Hhaz. done.
  - rewrite image_hazard by done. cbn [snd stage_src stage_dst]. auto.
  - rewrite buffer_hazard by done. cbn [snd stage_src stage_dst]. auto.
Qed.

(** X6. On a storage without a live image a call that follows a read-only
    access leaves the accumulator as it is, whatever stage and access it
    asks for, a write included. *)
Theorem transition_after_read_without_image (pb : PipelineBarrier)
    (stage1 access1 : Z) (s : vTensorStorage) :
  image_live (image_ s) = false ->
  Z.land access1 WRITE = 0 ->
  forall (pb2 : PipelineBarrier) (stage2 access2 : Z),
    snd (run_transition pb2 stage2 access2
           (fst (run_transition pb stage1 access1 s))) = pb2.
Proof.
  intros Hdead Hro pb2 stage2 access2.
  rewrite no_hazard; [done| |].
  - unfold prev_written_of.
    rewrite (transition_last_access vk_stage vk_access vk_layout WRITE).
    simpl. by rewrite Hro.
  - unfold layout_changed_of.
    by rewrite (transition_image_live vk_stage vk_access vk_layout WRITE), Hdead.
Qed.

End MoreTransition.

(** ** Storage construction and reallocation *)

Section MoreStorage.

Variable safe_downcast_u32 : Z -> result Z.
Variable Context : Type.
Variable ScalarType : Type.
Variable to_vkformat : ScalarType -> Z.
Variable element_size : ScalarType -> Z.
Variable vma_create_image : uvec3 -> Z -> Z -> Z -> bool -> M Context VulkanImage.
Variable vma_create_storage_buffer : Z -> bool -> M Context VulkanBuffer.
Variable register_image_cleanup : VulkanImage -> Context -> Context * VulkanImage.
Variable register_buffer_cleanup : VulkanBuffer -> Context -> Context * VulkanBuffer.
Variable vk_stage : Z -> Z.
Variable vk_access : Z -> Z -> Z.
Variable vk_layout : Z -> Z -> Z.
Variable WRITE : Z.

Local Abbreviation new_image := (allocate_image Context vma_create_image).
Local Abbreviation new_buffer :=
  (allocate_buffer Context ScalarType element_size vma_create_storage_buffer).
Local Abbreviation new_storage :=
  (vTensorStorage_new safe_downcast_u32 Context ScalarType to_vkformat
     element_size vma_create_image vma_create_storage_buffer).
Local Abbreviation run_flush :=
  (flush Context register_image_cleanup register_buffer_cleanup).
Local Abbreviation run_discard_and_reallocate :=
  (discard_and_reallocate safe_downcast_u32 Context ScalarType to_vkformat
     element_size vma_create_image vma_create_storage_buffer
     register_image_cleanup register_buffer_cleanup).
Local Abbreviation run_transition :=
  (transition vk_stage vk_access vk_layout WRITE).

(** Sequencing that returns has run both parts. *)
Lemma mbind_Ok_inv {St A B : Type} (m : M St A) (k : A -> M St B)
    (s s' : St) (b : B) :
  mbind m k s = (s', Ok b) ->
  exists a s1, m s = (s1, Ok a) /\ k a s1 = (s', Ok b).
Proof.
  unfold mbind. destruct (m s) as [s1 [a|e]]; [eauto|discriminate].
Qed.

Lemma flush_fields (w : Context * vTensorStorage) :
  storage_type_ (snd (run_flush w)) = storage_type_ (snd w) /\
  extents_ (snd (run_flush w)) = extents_ (snd w) /\
  buffer_length_ (snd (run_flush w)) = buffer_length_ (snd w) /\
  last_access_ (snd (run_flush w)) = LastAccess_empty.
Proof.
  destruct w as [c s]. unfold flush. simpl.
  destruct (image_live (image_ s)).
  - by destruct (register_image_cleanup (image_ s) c).
  - destruct (buffer_live (buffer_ s)); [|done].
    by destruct (register_buffer_cleanup (buffer_ s) c).
Qed.

Lemma vTensorStorage_new_inv (K : StorageType) (L : GPUMemoryLayout)
    (G : list Z) (d : ScalarType) (a : bool) (c c' : Context)
    (s : vTensorStorage) :
  new_storage K L G d a c = (c', Ok s) ->
  exists e c1 i b,
    create_image_extents safe_downcast_u32 G K L = Ok e /\
    new_image e K (to_vkformat d) a c = (c1, Ok i) /\
    new_buffer (multiply_integers G) K d a c1 = (c', Ok b) /\
    s = mk_vTensorStorage K e (multiply_integers G) i b LastAccess_empty.
Proof.
  unfold vTensorStorage_new, mbind, mlift, mret.
  destruct (create_image_extents safe_downcast_u32 G K L) as [e|]; [|done].
  destruct (new_image e K (to_vkformat d) a c) as [c1 [i|]] eqn:Ei; [|done].
  destruct (new_buffer (multiply_integers G) K d a c1) as [c2 [b|]] eqn:Eb;
    [|done].
  intros [= <- <-]. by exists e, c1, i, b.
Qed.

(** X7. A storage its constructor returns has the storage type asked for,
    the extent of the physical shape, the element count of the physical shape
    as buffer length and an empty last access; the device state after is that
    of one allocator request: a storage buffer of element_size * count bytes
    for the buffer kind, an image of the extent and the type of the kind
    otherwise, and the other resource is the null value. *)
Theorem vTensorStorage_new_allocates_once (K : StorageType)
    (L : GPUMemoryLayout) (G : list Z) (d : ScalarType) (a : bool)
    (c c' : Context) (s : vTensorStorage) :
  new_storage K L G d a c = (c', Ok s) ->
  storage_type_ s = K /\
  create_image_extents safe_downcast_u32 G K L = Ok (extents_ s) /\
  buffer_length_ s = multiply_integers G /\
  last_access_ s = LastAccess_empty /\
  match K with
  | kBuffer =>
      image_ s = VulkanImage_null /\
      vma_create_storage_buffer (element_size d * multiply_integers G) a c
        = (c', Ok (buffer_ s))
  | kTexture3D =>
      buffer_ s = VulkanBuffer_null /\
      vma_create_image (extents_ s) (to_vkformat d)
        VK_IMAGE_TYPE_3D VK_IMAGE_VIEW_TYPE_3D a c = (c', Ok (image_ s))
  | kTexture2D =>
      buffer_ s = VulkanBuffer_null /\
      vma_create_image (extents_ s) (to_vkformat d)
        VK_IMAGE_TYPE_2D VK_IMAGE_VIEW_TYPE_2D a c = (c', Ok (image_ s))
  end.
Proof.
  intros H. apply vTensorStorage_new_inv in H as (e & c1 & i & b & He & Hi & Hb & ->).
  simpl. repeat split; try done.
  destruct K; simpl in *; unfold mret in *.
  - injection Hi as <- <-. done.
  - injection Hb as <- <-. done.
  - injection Hb as <- <-. done.
Qed.

(** X8. An image storage for a physical shape of rank 0 or above 4 is
    rejected with an InvalidArgument error before anything is allocated: the
    device state is returned as it was. *)
Theorem vTensorStorage_new_rejects_rank (K : StorageType)
    (L : GPUMemoryLayout) (G : list Z) (d : ScalarType) (a : bool)
    (c : Context) :
  is_buffer K = false -> ~ (1 <= length G <= 4)%nat ->
  exists msg, new_storage K L G d a c = (c, Err (InvalidArgument msg)).
Proof.
  intros HK HG.
  unfold vTensorStorage_new, mbind, mlift, create_image_extents.
  rewrite HK.
  destruct (Nat.leb_spec 1 (length G)), (Nat.leb_spec (length G) 4);
    try lia; simpl; eauto.
Qed.

Lemma discard_and_reallocate_inv (G : list Z) (L : GPUMemoryLayout)
    (d : ScalarType) (w w' : Context * vTensorStorage) :
  run_discard_and_reallocate G L d w = (w', Ok tt) ->
  exists e c1 i b,
    create_image_extents safe_downcast_u32 G (storage_type_ (snd w)) L = Ok e /\
    new_image e (storage_type_ (snd w)) (to_vkformat d)
      (image_owns_memory (image_ (snd w))) (fst (run_flush w)) = (c1, Ok i) /\
    new_buffer (multiply_integers G) (storage_type_ (snd w)) d
      (buffer_owns_memory (buffer_ (snd w))) c1 = (fst w', Ok b) /\
    snd w' = mk_vTensorStorage (storage_type_ (snd w)) e (multiply_integers G)
               i b LastAccess_empty.
Proof.
  unfold discard_and_reallocate, mbind, mlift, mret, mget, mmodify, mzoom.
  destruct (flush_fields w) as (HK & _ & _ & Hla).
  destruct (run_flush w) as [c0 s0]. simpl in *. rewrite HK.
  destruct (create_image_extents safe_downcast_u32 G (storage_type_ (snd w)) L)
    as [e|]; [|done]. simpl.
  destruct (new_image e (storage_type_ (snd w)) (to_vkformat d)
              (image_owns_memory (image_ (snd w))) c0)
    as [c1 [i|]] eqn:Ei; [|done]. simpl.
  destruct (new_buffer (multiply_integers G) (storage_type_ (snd w)) d
              (buffer_owns_memory (buffer_ (snd w))) c1)
    as [c2 [b|]] eqn:Eb; [|done]. simpl.
  intros [= <-]. simpl. exists e, c1, i, b.
  repeat split; try done.
  unfold with_buffer, with_buffer_length, with_image, with_extents. simpl.
  by rewrite HK, Hla.
Qed.

(** X9. After a discard_and_reallocate that returns, the storage has its
    old storage type, the extent and element count of the new physical shape
    and an empty last access, and its resources are those the allocator
    returned, asked after the flush and with the memory ownership of the
    resources before the call. *)
Theorem discard_and_reallocate_result (G : list Z) (L : GPUMemoryLayout)
    (d : ScalarType) (w w' : Context * vTensorStorage) :
  run_discard_and_reallocate G L d w = (w', Ok tt) ->
  storage_type_ (snd w') = storage_type_ (snd w) /\
  create_image_extents safe_downcast_u32 G (storage_type_ (snd w)) L
    = Ok (extents_ (snd w')) /\
  buffer_length_ (snd w') = multiply_integers G /\
  last_access_ (snd w') = LastAccess_empty /\
  exists c1,
    new_image (extents_ (snd w')) (storage_type_ (snd w)) (to_vkformat d)
      (image_owns_memory (image_ (snd w))) (fst (run_flush w))
      = (c1, Ok (image_ (snd w'))) /\
    new_buffer (multiply_integers G) (storage_type_ (snd w)) d
      (buffer_owns_memory (buffer_ (snd w))) c1
      = (fst w', Ok (buffer_ (snd w'))).
Proof.
  intros H.
  apply discard_and_reallocate_inv in H as (e & c1 & i & b & He & Hi & Hb & Hs).
  rewrite Hs. simpl. repeat split; try done. by exists c1.
Qed.

(** X10. When the extent of the new physical shape cannot be computed,
    discard_and_reallocate fails with that error after the flush: the state
    left is the flushed one, with an empty last access and the old extents
    and buffer length. *)
Theorem discard_and_reallocate_failure_leaves_flushed (G : list Z)
    (L : GPUMemoryLayout) (d : ScalarType) (w : Context * vTensorStorage)
    (e : vk_error) :
  create_image_extents safe_downcast_u32 G (storage_type_ (snd w)) L = Err e ->
  run_discard_and_reallocate G L d w = (run_flush w, Err e) /\
  last_access_ (snd (run_flush w)) = LastAccess_empty /\
  extents_ (snd (run_flush w)) = extents_ (snd w) /\
  buffer_length_ (snd (run_flush w)) = buffer_length_ (snd w).
Proof.
  intros He.
  destruct (flush_fields w) as (HK & Hext & Hlen & Hla).
  split; [|done].
  unfold discard_and_reallocate, mbind, mlift, mret, mget, mmodify, mzoom.
  simpl. rewrite HK, He. done.
Qed.

(** X11. The first transition on a buffer storage that has just been
    constructed, or just been reallocated, leaves the accumulator as it is,
    whatever stage and access it asks for. *)
Theorem fresh_buffer_storage_needs_no_barrier (L : GPUMemoryLayout)
    (G : list Z) (d : ScalarType) :
  (forall a c c' s,
     new_storage kBuffer L G d a c = (c', Ok s) ->
     forall pb cur_stage cur_access,
       snd (run_transition pb cur_stage cur_access s) = pb) /\
  (forall w w',
     storage_type_ (snd w) = kBuffer ->
     run_discard_and_reallocate G L d w = (w', Ok tt) ->
     forall pb cur_stage cur_access,
       snd (run_transition pb cur_stage cur_access (snd w')) = pb).
Proof.
  split.
  - intros a c c' s H pb cur_stage cur_access.
    apply vTensorStorage_new_inv in H as (e & c1 & i & b & _ & Hi & _ & ->).
    simpl in Hi. unfold mret in Hi. injection Hi as _ <-.
    by rewrite transition_no_hazard.
  - intros w w' HK H pb cur_stage cur_access.
    apply discard_and_reallocate_inv in H as (e & c1 & i & b & _ & Hi & _ & ->).
    rewrite HK in Hi. simpl in Hi. unfold mret in Hi. injection Hi as _ <-.
    by rewrite transition_no_hazard.
Qed.

End MoreStorage.

(** ** Size metadata *)

(** Invert a method that is known to have returned, step by step. *)
Ltac method_inv H :=
  cbv beta in H;
  lazymatch type of H with
  | mbind _ _ _ = (_, Ok _) =>
      let H1 := fresh "Hstep" in
      let H2 := fresh "Hrest" in
      apply mbind_Ok_inv in H as (? & ? & H1 & H2);
      method_inv H1; method_inv H2
  | mwhen ?b _ _ = (_, Ok _) =>
      destruct b eqn:?; cbn [mwhen] in H; method_inv H
  | mget _ = _ => unfold mget in H; simplify_eq
  | mmodify _ _ = _ => unfold mmodify in H; simplify_eq
  | mlift _ _ = _ => unfold mlift in H; simplify_eq
  | mret _ _ = _ => unfold mret in H; simplify_eq
  | _ => idtac
  end.

Section MoreResize.

Variable safe_downcast_u32 : Z -> result Z.
Variable safe_downcast_i32 : Z -> result Z.
Variable ScalarType : Type.
Variable ivec4 : Type.
Variable make_whcn_ivec4 : list Z -> ivec4.

Local Abbreviation tensor := (vTensor ScalarType ivec4).
Local Abbreviation run_update_size_metadata :=
  (update_size_metadata safe_downcast_u32 safe_downcast_i32 make_whcn_ivec4).
Local Abbreviation run_virtual_resize :=
  (virtual_resize safe_downcast_u32 safe_downcast_i32 make_whcn_ivec4).
Local Abbreviation packed_dim_metadata :=
  (make_packed_dim_metadata ScalarType safe_downcast_i32 ivec4).

Lemma update_size_metadata_inv (new_sizes : list Z) (t t' : tensor) :
  run_update_size_metadata new_sizes t = (t', Ok tt) ->
  sizes_ t' = new_sizes /\
  calc_gpu_sizes new_sizes (memory_layout_ t) (storage_type t)
    = Ok (gpu_sizes_ t') /\
  (if is_buffer (storage_type t)
   then texture_limits_ t' = texture_limits_ t
   else exists e,
          create_image_extents safe_downcast_u32 (gpu_sizes_ t')
            (storage_type t) (memory_layout_ t) = Ok e /\
          texture_limits_of safe_downcast_i32 e = Ok (texture_limits_ t')) /\
  sizes_uniform_ t' =
    match sizes_uniform_ t with
    | Some _ => Some (make_whcn_ivec4 new_sizes)
    | None => None
    end /\
  texture_limits_uniform_ t' =
    match texture_limits_uniform_ t with
    | Some _ => Some (texture_limits_ t')
    | None => None
    end /\
  match packed_dim_meta_ t with
  | Some _ => exists m, packed_dim_meta_ t' = Some m /\
                        packed_dim_metadata t' = Ok m
  | None => packed_dim_meta_ t' = None
  end.
Proof.
  unfold update_size_metadata. intros H.
  method_inv H.
  all: unfold make_packed_dim_metadata, extents, storage_type in *;
    cbn -[calc_gpu_sizes create_image_extents texture_limits_of] in *.
  all: repeat match goal with
       | H : bool_decide _ = true |- _ => apply bool_decide_eq_true_1 in H
       | H : bool_decide _ = false |- _ => apply bool_decide_eq_false_1 in H
       | H : is_Some _ |- _ => destruct H as [? ->]
       | H : ~ is_Some ?x |- _ =>
           destruct x eqn:?; [exfalso; apply H; eauto|clear H]
       | H : negb ?b = _ |- _ =>
           destruct b eqn:?; simpl in H; try discriminate H; clear H
       end.
  all: repeat split; eauto.
Qed.

(** X12. After an update_size_metadata that returns, the sizes are the new
    sizes and the physical sizes their physical shape; for image storage the
    texture limits are the cast extent of that physical shape and for buffer
    storage they are unchanged; every metadata buffer that existed holds the
    new value and none is created. *)
Theorem update_size_metadata_result (new_sizes : list Z) (t t' : tensor) :
  run_update_size_metadata new_sizes t = (t', Ok tt) ->
  sizes_ t' = new_sizes /\
  calc_gpu_sizes new_sizes (memory_layout_ t) (storage_type t)
    = Ok (gpu_sizes_ t') /\
  (if is_buffer (storage_type t)
   then texture_limits_ t' = texture_limits_ t
   else exists e,
          create_image_extents safe_downcast_u32 (gpu_sizes_ t')
            (storage_type t) (memory_layout_ t) = Ok e /\
          texture_limits_of safe_downcast_i32 e = Ok (texture_limits_ t')) /\
  sizes_uniform_ t' =
    match sizes_uniform_ t with
    | Some _ => Some (make_whcn_ivec4 new_sizes)
    | None => None
    end /\
  texture_limits_uniform_ t' =
    match texture_limits_uniform_ t with
    | Some _ => Some (texture_limits_ t')
    | None => None
    end /\
  match packed_dim_meta_ t with
  | Some _ => exists m, packed_dim_meta_ t' = Some m /\
                        packed_dim_metadata t' = Ok m
  | None => packed_dim_meta_ t' = None
  end.
Proof. apply update_size_metadata_inv. Qed.

(** X13. For image storage and new sizes of rank above 4,
    update_size_metadata fails with an InvalidArgument error after it has
    stored the new sizes: physical sizes, texture limits and metadata buffers
    are left as they were; virtual_resize does the same whenever its size
    check passes. *)
Theorem resize_rank_failure_keeps_new_sizes (new_sizes : list Z) (t : tensor) :
  is_buffer (storage_type t) = false -> (4 < length new_sizes)%nat ->
  exists msg,
    run_update_size_metadata new_sizes t =
      (with_sizes ScalarType ivec4 new_sizes t, Err (InvalidArgument msg)) /\
    (forall e,
       create_image_extents safe_downcast_u32 (gpu_sizes_ t) (storage_type t)
         (memory_layout_ t) = Ok e ->
       uvec3_le e (extents t) ->
       run_virtual_resize new_sizes t =
         (with_sizes ScalarType ivec4 new_sizes t, Err (InvalidArgument msg))) /\
    sizes_ (with_sizes ScalarType ivec4 new_sizes t) = new_sizes /\
    gpu_sizes_ (with_sizes ScalarType ivec4 new_sizes t) = gpu_sizes_ t /\
    texture_limits_ (with_sizes ScalarType ivec4 new_sizes t)
      = texture_limits_ t.
Proof.
  intros HK Hrank.
  assert (exists msg,
            calc_gpu_sizes new_sizes (memory_layout_ t) (storage_type t)
              = Err (InvalidArgument msg)) as [msg Hcalc].
  { unfold calc_gpu_sizes. rewrite HK.
    destruct (Nat.leb_spec (length new_sizes) 4); [lia|]. simpl. eauto. }
  assert (run_update_size_metadata new_sizes t =
            (with_sizes ScalarType ivec4 new_sizes t, Err (InvalidArgument msg)))
    as Hupd.
  { unfold update_size_metadata, mbind, mmodify, mget, mlift.
    cbn -[calc_gpu_sizes]. unfold storage_type in *. cbn -[calc_gpu_sizes].
    by rewrite Hcalc. }
  exists msg. split; [done|]. split; [|done].
  intros e He (H0 & H1 & H2).
  unfold virtual_resize, mbind at 1, mget at 1. cbn [fst snd].
  unfold mbind at 1. rewrite HK. cbn [negb mwhen].
  unfold mbind at 1, mlift at 1. rewrite He.
  unfold mlift.
  destruct (Z.leb_spec (data0 e) (data0 (extents t))); [|lia].
  destruct (Z.leb_spec (data1 e) (data1 (extents t))); [|lia].
  destruct (Z.leb_spec (data2 e) (data2 (extents t))); [|lia].
  cbn [andb VK_CHECK_COND]. exact Hupd.
Qed.

Hypothesis safe_downcast_i32_in_range :
  forall v, in_i32 v -> safe_downcast_i32 v = Ok v.

(** X14. For buffer storage virtual_resize returns for new sizes of any
    rank and length, provided the extent component read for an existing
    packed-dimension metadata buffer fits int32; the texture limits are
    unchanged. *)
Theorem virtual_resize_buffer_succeeds (new_sizes : list Z) (t : tensor) :
  is_buffer (storage_type t) = true ->
  (is_Some (packed_dim_meta_ t) ->
   in_i32 (uvec3_data (extents t) (gpu_memory_layout_int (memory_layout_ t)))) ->
  exists t',
    run_virtual_resize new_sizes t = (t', Ok tt) /\
    sizes_ t' = new_sizes /\
    calc_gpu_sizes new_sizes (memory_layout_ t) kBuffer = Ok (gpu_sizes_ t') /\
    texture_limits_ t' = texture_limits_ t.
Proof.
  intros HK Hext.
  destruct t as [dt ml sz gsz tl su tlu pdm [K e n img buf la]].
  unfold storage_type, extents in *. cbn in HK, Hext.
  destruct K; try discriminate HK. clear HK.
  unfold virtual_resize, update_size_metadata, mbind, mget, mmodify, mlift,
    mwhen, mret, make_packed_dim_metadata, storage_type, extents.
  cbn -[calc_gpu_sizes]. rewrite calc_gpu_sizes_buffer_eq.
  destruct su, tlu, pdm; cbn -[calc_gpu_sizes];
    rewrite ?safe_downcast_i32_in_range by eauto; cbn -[calc_gpu_sizes];
    eexists; (split; [reflexivity|]); cbn; done.
Qed.

(** X15. Each of the three metadata accessors creates its buffer at most
    once: a second call changes nothing, and a buffer that exists is left as
    it is. *)
Theorem metadata_buffers_created_once (t : tensor) :
  let ubo1 := sizes_ubo ScalarType ivec4 make_whcn_ivec4 in
  let ubo2 := texture_limits_ubo ScalarType ivec4 in
  let ubo3 := packed_dim_meta_ubo ScalarType safe_downcast_i32 ivec4 in
  fst (ubo1 (fst (ubo1 t))) = fst (ubo1 t) /\
  fst (ubo2 (fst (ubo2 t))) = fst (ubo2 t) /\
  fst (ubo3 (fst (ubo3 t))) = fst (ubo3 t) /\
  (forall v, sizes_uniform_ t = Some v -> ubo1 t = (t, Ok tt)) /\
  (forall v, texture_limits_uniform_ t = Some v -> ubo2 t = (t, Ok tt)) /\
  (forall v, packed_dim_meta_ t = Some v -> ubo3 t = (t, Ok tt)).
Proof.
  unfold sizes_ubo, texture_limits_ubo, packed_dim_meta_ubo,
    mbind, mget, mwhen, mmodify, mlift, mret.
  cbn. repeat split.
  - destruct (sizes_uniform_ t) eqn:E; cbn; rewrite ?E; done.
  - destruct (texture_limits_uniform_ t) eqn:E; cbn; rewrite ?E; done.
  - destruct (packed_dim_meta_ t) eqn:E; cbn; rewrite ?E; cbn; [done|].
    destruct (packed_dim_metadata t) eqn:Em; cbn; [done|].
    by rewrite E, Em.
  - by intros v ->.
  - by intros v ->.
  - by intros v ->.
Qed.

End MoreResize.

(** ** Packed-dimension metadata and accessors *)

Lemma i32_small (x : Z) : in_i32 x -> i32 x = x.
Proof.
  unfold in_i32, i32. intros Hx.
  rewrite Z.mod_small; lia.
Qed.

Lemma gpu_memory_layout_int_from_end (P : GPUMemoryLayout) :
  - (gpu_memory_layout_int P + 1) = - Z.of_nat (packed_dim_from_end P).
Proof. by destruct P. Qed.

(** The packed entry of a physical shape. *)
Lemma calc_gpu_sizes_packed_entry (shape G : list Z) (P : GPUMemoryLayout)
    (K : StorageType) :
  calc_gpu_sizes shape P K = Ok G ->
  val_at (- Z.of_nat (packed_dim_from_end P)) G =
    if is_buffer K && (length shape <? packed_dim_from_end P)%nat
    then val_at (- Z.of_nat (packed_dim_from_end P)) shape
    else align_up (val_at (- Z.of_nat (packed_dim_from_end P)) shape) 4.
Proof.
  pose proof (packed_dim_from_end_range P) as Hk.
  destruct (is_buffer K) eqn:HK.
  - destruct K; try discriminate.
    rewrite calc_gpu_sizes_buffer_eq. simpl.
    destruct (Nat.leb_spec (packed_dim_from_end P) (length shape)) as [Hle|Hlt];
      intros [= <-].
    + destruct (Nat.ltb_spec (length shape) (packed_dim_from_end P)); [lia|].
      apply val_at_insert_from_end. lia.
    + by destruct (Nat.ltb_spec (length shape) (packed_dim_from_end P)); [|lia].
  - simpl. destruct (Nat.leb_spec (length shape) 4) as [Hs|Hs].
    + rewrite calc_gpu_sizes_texture_eq by done. intros [= <-].
      pose proof (right_align4_length shape Hs) as HR.
      rewrite <- HR at 1. apply val_at_insert_from_end. lia.
    + unfold calc_gpu_sizes. rewrite HK.
      destruct (Nat.leb_spec (length shape) 4); [lia|]. done.
Qed.

Section MoreMetadata.

Variable safe_downcast_i32 : Z -> result Z.
Variable ScalarType : Type.
Variable ivec4 : Type.

Local Abbreviation tensor := (vTensor ScalarType ivec4).
Local Abbreviation packed_dim_metadata :=
  (make_packed_dim_metadata ScalarType safe_downcast_i32 ivec4).

(** X16. For a tensor whose physical sizes are the physical shape of its
    sizes and whose packed dimension is at most 2^31 - 4, the packed-dimension
    metadata has the packed dimension as size, a padding between 0 and 3 and
    size + padding as padded size, which is a multiple of 4 for image storage
    and whenever the shape has the packed dimension. *)
Theorem packed_dim_metadata_padding (t : tensor) (m : PackedDimMeta) :
  calc_gpu_sizes (sizes_ t) (memory_layout_ t) (storage_type t)
    = Ok (gpu_sizes_ t) ->
  0 <= val_at (- Z.of_nat (packed_dim_from_end (memory_layout_ t))) (sizes_ t)
    <= 2 ^ 31 - 4 ->
  packed_dim_metadata t = Ok m ->
  dim_size m =
    val_at (- Z.of_nat (packed_dim_from_end (memory_layout_ t))) (sizes_ t) /\
  0 <= padding m <= 3 /\
  dim_size_padded m = dim_size m + padding m /\
  (is_buffer (storage_type t) = false \/
   (packed_dim_from_end (memory_layout_ t) <= length (sizes_ t))%nat ->
   dim_size_padded m mod 4 = 0).
Proof.
  intros Hcalc Hx.
  apply calc_gpu_sizes_packed_entry in Hcalc.
  unfold make_packed_dim_metadata.
  rewrite gpu_memory_layout_int_from_end, Hcalc.
  set (x := val_at _ (sizes_ t)) in *.
  pose proof (align_up_bounds x 4 ltac:(lia)) as Hb.
  pose proof (align_up_multiple x 4 ltac:(lia)) as Hm.
  destruct (safe_downcast_i32 _) as [len|]; [|done]. simpl.
  intros [= <-]. simpl.
  assert (in_i32 x) by (unfold in_i32; lia).
  rewrite (i32_small x) by done.
  destruct (is_buffer (storage_type t) && _) eqn:Hc.
  - rewrite (i32_small x) by done.
    replace (x - x) with 0 by lia. rewrite i32_small by (unfold in_i32; lia).
    repeat split; try lia.
    apply andb_true_iff in Hc as [Hc1 Hc2]. apply Nat.ltb_lt in Hc2.
    intros [?|?]; [congruence|lia].
  - rewrite (i32_small (align_up x 4)) by (unfold in_i32; lia).
    rewrite i32_small by (unfold in_i32; lia).
    repeat split; lia.
Qed.

End MoreMetadata.

Section MoreAccessors.

Variable ScalarType : Type.
Variable ivec4 : Type.
Variable vk_stage : Z -> Z.
Variable vk_access : Z -> Z -> Z.
Variable vk_layout : Z -> Z -> Z.
Variable WRITE : Z.

Local Abbreviation tensor := (vTensor ScalarType ivec4).
Local Abbreviation run_transition :=
  (transition vk_stage vk_access vk_layout WRITE).
Local Abbreviation image_of :=
  (vTensor_image ScalarType vk_stage vk_access vk_layout WRITE ivec4).
Local Abbreviation buffer_of :=
  (vTensor_buffer ScalarType vk_stage vk_access vk_layout WRITE ivec4).

Lemma transition_resources (pb : PipelineBarrier)
    (cur_stage cur_access : Z) (s : vTensorStorage) :
  buffer_ (fst (run_transition pb cur_stage cur_access s)) = buffer_ s /\
  image_handle (image_ (fst (run_transition pb cur_stage cur_access s)))
    = image_handle (image_ s).
Proof.
  destruct (transition_cases vk_layout WRITE cur_stage cur_access s)
    as [[Hw Hl]|[[Hi Hh]|[Hi Hw]]].
  - by rewrite transition_no_hazard.
  - by rewrite transition_image_hazard.
  - by rewrite transition_buffer_hazard.
Qed.

(** X17. The image accessor returns the image of the storage after the
    transition, with the handle it had and, when live, in the layout of the
    call; the buffer accessor returns the buffer unchanged; both leave the
    barriers of the transition in the accumulator, record the access and
    keep the sizes. *)
Theorem accessors_return_transitioned_resource (pb : PipelineBarrier)
    (cur_stage cur_access : Z) (t : tensor) :
  let ri := image_of pb cur_stage cur_access t in
  let rb := buffer_of pb cur_stage cur_access t in
  snd ri = image_ (storage_ (fst (fst ri))) /\
  image_handle (snd ri) = image_handle (image_ (storage_ t)) /\
  (image_live (image_ (storage_ t)) = true ->
   image_layout (snd ri) = vk_layout cur_stage cur_access) /\
  snd rb = buffer_ (storage_ t) /\
  snd (fst ri) = snd (run_transition pb cur_stage cur_access (storage_ t)) /\
  snd (fst rb) = snd (run_transition pb cur_stage cur_access (storage_ t)) /\
  last_access_ (storage_ (fst (fst ri))) = mk_LastAccess cur_stage cur_access /\
  last_access_ (storage_ (fst (fst rb))) = mk_LastAccess cur_stage cur_access /\
  sizes_ (fst (fst ri)) = sizes_ t /\ gpu_sizes_ (fst (fst ri)) = gpu_sizes_ t /\
  sizes_ (fst (fst rb)) = sizes_ t /\ gpu_sizes_ (fst (fst rb)) = gpu_sizes_ t.
Proof.
  intros ri rb. subst ri rb. unfold vTensor_image, vTensor_buffer.
  pose proof (transition_resources pb cur_stage cur_access (storage_ t))
    as [Hb Hh].
  pose proof (transition_last_access vk_stage vk_access vk_layout WRITE
                pb cur_stage cur_access (storage_ t)) as Hla.
  pose proof (transition_layout_settled vk_stage vk_access vk_layout WRITE
                pb cur_stage cur_access (storage_ t)) as Hl.
  pose proof (transition_image_live vk_stage vk_access vk_layout WRITE
                pb cur_stage cur_access (storage_ t)) as Hi.
  destruct (run_transition pb cur_stage cur_access (storage_ t)) as [s' pb'].
  simpl in *. repeat split; try done.
  intros Hlive. unfold layout_changed_of in Hl. rewrite Hi, Hlive in Hl.
  simpl in Hl. apply negb_false_iff, Z.eqb_eq in Hl. done.
Qed.

End MoreAccessors.

(** ** Tensor construction and reallocation *)

Lemma mzoom_Ok_inv {St T A : Type} (get : St -> T) (set : T -> St -> St)
    (m : M T A) (s s' : St) (a : A) :
  mzoom get set m s = (s', Ok a) ->
  exists t', m (get s) = (t', Ok a) /\ s' = set t' s.
Proof.
  unfold mzoom. destruct (m (get s)) as [t' r]. intros [= <- ->]. eauto.
Qed.

Section MoreTensor.

Variable safe_downcast_u32 : Z -> result Z.
Variable Context : Type.
Variable ScalarType : Type.
Variable to_vkformat : ScalarType -> Z.
Variable element_size : ScalarType -> Z.
Variable vma_create_image : uvec3 -> Z -> Z -> Z -> bool -> M Context VulkanImage.
Variable vma_create_storage_buffer : Z -> bool -> M Context VulkanBuffer.
Variable register_image_cleanup : VulkanImage -> Context -> Context * VulkanImage.
Variable register_buffer_cleanup : VulkanBuffer -> Context -> Context * VulkanBuffer.
Variable safe_downcast_i32 : Z -> result Z.
Variable ivec4 : Type.
Variable make_whcn_ivec4 : list Z -> ivec4.
Variable is_kHalf : ScalarType -> bool.
Variable has_16bit_storage : bool.

Local Abbreviation tensor := (vTensor ScalarType ivec4).
Local Abbreviation new_storage :=
  (vTensorStorage_new safe_downcast_u32 Context ScalarType to_vkformat
     element_size vma_create_image vma_create_storage_buffer).
Local Abbreviation new_tensor :=
  (vTensor_new safe_downcast_u32 Context ScalarType to_vkformat element_size
     vma_create_image vma_create_storage_buffer register_image_cleanup
     register_buffer_cleanup safe_downcast_i32 ivec4 is_kHalf
     has_16bit_storage).
Local Abbreviation run_flush :=
  (flush Context register_image_cleanup register_buffer_cleanup).
Local Abbreviation run_reallocate :=
  (reallocate safe_downcast_u32 Context ScalarType to_vkformat element_size
     vma_create_image vma_create_storage_buffer register_image_cleanup
     register_buffer_cleanup safe_downcast_i32 ivec4 make_whcn_ivec4).
Local Abbreviation run_update_size_metadata :=
  (update_size_metadata safe_downcast_u32 safe_downcast_i32 make_whcn_ivec4).
Local Abbreviation run_discard_and_reallocate :=
  (discard_and_reallocate safe_downcast_u32 Context ScalarType to_vkformat
     element_size vma_create_image vma_create_storage_buffer
     register_image_cleanup register_buffer_cleanup).
Local Abbreviation packed_dim_metadata :=
  (make_packed_dim_metadata ScalarType safe_downcast_i32 ivec4).

Lemma vTensor_new_inv (sizes : list Z) (d : ScalarType) (K : StorageType)
    (L : GPUMemoryLayout) (a : bool) (c c' : Context) (t : tensor) :
  new_tensor sizes d K L a c = (c', Ok t) ->
  exists G s limits,
    calc_gpu_sizes sizes L K = Ok G /\
    new_storage K L G d a c = (c', Ok s) /\
    (if is_buffer K then limits = mk_ivec3 0 0 0
     else texture_limits_of safe_downcast_i32 (extents_ s) = Ok limits) /\
    (is_kHalf d = true -> has_16bit_storage = true) /\
    t = mk_vTensor d L sizes G limits None None None s.
Proof.
  unfold vTensor_new, mbind at 1, mlift at 1.
  destruct (calc_gpu_sizes sizes L K) as [G|]; [|done].
  unfold mbind.
  destruct (new_storage K L G d a c) as [c1 [s|]] eqn:Hs; [|done].
  destruct (is_buffer K); simpl.
  - destruct (is_kHalf d), has_16bit_storage; simpl; try done;
      intros [= <- <-]; by exists G, s, (mk_ivec3 0 0 0).
  - destruct (texture_limits_of safe_downcast_i32 (extents_ s)) as [l|] eqn:Hl;
      simpl; [|done].
    destruct (is_kHalf d), has_16bit_storage; simpl; try done;
      intros [= <- <-]; by exists G, s, l.
Qed.

(** X18. A tensor its constructor returns has the sizes, element type and
    packing asked for, the physical shape of the sizes, the storage
    constructed for that physical shape, texture limits equal to the cast
    allocated extent (zero for buffer storage) and no metadata buffer; and a
    half element type is returned only on a device with 16-bit storage. *)
Theorem vTensor_new_result (sizes : list Z) (d : ScalarType) (K : StorageType)
    (L : GPUMemoryLayout) (a : bool) (c c' : Context) (t : tensor) :
  new_tensor sizes d K L a c = (c', Ok t) ->
  sizes_ t = sizes /\ dtype_ t = d /\ memory_layout_ t = L /\
  calc_gpu_sizes sizes L K = Ok (gpu_sizes_ t) /\
  new_storage K L (gpu_sizes_ t) d a c = (c', Ok (storage_ t)) /\
  (if is_buffer K then texture_limits_ t = mk_ivec3 0 0 0
   else texture_limits_of safe_downcast_i32 (extents t)
          = Ok (texture_limits_ t)) /\
  sizes_uniform_ t = None /\ texture_limits_uniform_ t = None /\
  packed_dim_meta_ t = None /\
  (is_kHalf d = true -> has_16bit_storage = true).
Proof.
  intros H.
  apply vTensor_new_inv in H as (G & s & l & HG & Hs & Hl & Hh & ->).
  simpl. repeat split; done.
Qed.

(** X19. On a device without 16-bit storage the constructor never returns
    a tensor of half element type; when the steps before the check succeed it
    fails with an UnsupportedConfiguration error after the storage has been
    allocated and flushed. *)
Theorem vTensor_new_half_unsupported (sizes : list Z) (d : ScalarType)
    (K : StorageType) (L : GPUMemoryLayout) (a : bool) (c : Context) :
  is_kHalf d = true -> has_16bit_storage = false ->
  (forall c' t, new_tensor sizes d K L a c <> (c', Ok t)) /\
  (forall G c1 s,
     calc_gpu_sizes sizes L K = Ok G ->
     new_storage K L G d a c = (c1, Ok s) ->
     is_ok (if is_buffer K then Ok (mk_ivec3 0 0 0)
            else texture_limits_of safe_downcast_i32 (extents_ s)) = true ->
     exists msg,
       new_tensor sizes d K L a c =
         (fst (run_flush (c1, s)), Err (UnsupportedConfiguration msg))).
Proof.
  intros Hhalf Hcap. split.
  - intros c' t H. apply vTensor_new_inv in H as (_ & _ & _ & _ & _ & _ & Hh & _).
    specialize (Hh Hhalf). congruence.
  - intros G c1 s HG Hs Hl.
    unfold vTensor_new, mbind at 1, mlift at 1. rewrite HG.
    unfold mbind. rewrite Hs, Hhalf, Hcap.
    destruct (is_buffer K); simpl in *; [eauto|].
    destruct (texture_limits_of safe_downcast_i32 (extents_ s)); [|done].
    simpl. eauto.
Qed.

Lemma reallocate_inv (new_sizes : list Z) (w w' : Context * tensor) :
  run_reallocate new_sizes w = (w', Ok tt) ->
  exists t1 G cs,
    run_update_size_metadata new_sizes (snd w) = (t1, Ok tt) /\
    calc_gpu_sizes new_sizes (memory_layout_ t1) (storage_type t1) = Ok G /\
    run_discard_and_reallocate G (memory_layout_ t1) (dtype_ t1)
      (fst w, storage_ t1) = (cs, Ok tt) /\
    w' = (fst cs, with_storage ScalarType ivec4 (snd cs) t1).
Proof.
  unfold reallocate. intros H.
  apply mbind_Ok_inv in H as ([] & w1 & H1 & H).
  apply mzoom_Ok_inv in H1 as (t1 & H1 & ->).
  apply mbind_Ok_inv in H as (w2 & w3 & H2 & H).
  unfold mget in H2. injection H2 as <- <-.
  apply mbind_Ok_inv in H as (G & w4 & H3 & H).
  unfold mlift in H3. injection H3 as <- H3.
  apply mzoom_Ok_inv in H as (cs & H & ->).
  simpl in *. by exists t1, G, cs.
Qed.

(** X20. After a reallocate that returns, the sizes are the new sizes, and
    the storage has the extent and the element count of their physical shape
    and an empty last access; storage type, packing and element type are
    kept, and for image storage the texture limits are the cast allocated
    extent. *)
Theorem reallocate_result (new_sizes : list Z) (w w' : Context * tensor) :
  run_reallocate new_sizes w = (w', Ok tt) ->
  let t := snd w in
  let t' := snd w' in
  sizes_ t' = new_sizes /\
  calc_gpu_sizes new_sizes (memory_layout_ t) (storage_type t)
    = Ok (gpu_sizes_ t') /\
  create_image_extents safe_downcast_u32 (gpu_sizes_ t') (storage_type t)
    (memory_layout_ t) = Ok (extents t') /\
  buffer_length_ (storage_ t') = multiply_integers (gpu_sizes_ t') /\
  last_access_ (storage_ t') = LastAccess_empty /\
  storage_type t' = storage_type t /\
  memory_layout_ t' = memory_layout_ t /\ dtype_ t' = dtype_ t /\
  (is_buffer (storage_type t) = false ->
   texture_limits_of safe_downcast_i32 (extents t') = Ok (texture_limits_ t')).
Proof.
  intros H t t'. subst t t'.
  apply reallocate_inv in H as (t1 & G & cs & Hu & HG & Hd & ->).
  pose proof (update_size_metadata_frame safe_downcast_u32 safe_downcast_i32
                ScalarType ivec4 make_whcn_ivec4 new_sizes (snd w)) as Hf.
  rewrite Hu in Hf. destruct Hf as (Hst & Hdt & Hml & _).
  apply update_size_metadata_inv in Hu as (Hsz & Hgs & Htl & _).
  apply discard_and_reallocate_inv in Hd as (e & c1 & i & b & He & _ & _ & Hs).
  unfold storage_type, extents in *. simpl in *.
  rewrite Hst, Hml in *. rewrite HG in Hgs. injection Hgs as ->.
  rewrite Hs. simpl. repeat split; try done.
  intros HK. rewrite HK in Htl. destruct Htl as (e' & He' & Hl).
  rewrite He in He'. by injection He' as <-.
Qed.

(** X21. After a reallocate that returns, an existing packed-dimension
    metadata buffer holds as texel length the cast component of the extent
    allocated before the call, not of the new one. *)
Theorem reallocate_keeps_old_texel_length (new_sizes : list Z)
    (w w' : Context * tensor) (m0 : PackedDimMeta) :
  run_reallocate new_sizes w = (w', Ok tt) ->
  packed_dim_meta_ (snd w) = Some m0 ->
  exists m,
    packed_dim_meta_ (snd w') = Some m /\
    safe_downcast_i32
      (uvec3_data (extents (snd w))
                  (gpu_memory_layout_int (memory_layout_ (snd w))))
      = Ok (dim_texel_len m).
Proof.
  intros H Hm0.
  apply reallocate_inv in H as (t1 & G & cs & Hu & _ & _ & ->).
  pose proof (update_size_metadata_frame safe_downcast_u32 safe_downcast_i32
                ScalarType ivec4 make_whcn_ivec4 new_sizes (snd w)) as Hf.
  rewrite Hu in Hf. simpl in Hf. destruct Hf as (Hst & _ & Hml & _).
  apply update_size_metadata_inv in Hu as (_ & _ & _ & _ & _ & Hm).
  rewrite Hm0 in Hm. destruct Hm as (m & Hm & Hmeta).
  exists m. split; [done|].
  unfold make_packed_dim_metadata, extents in *. rewrite Hst, Hml in Hmeta.
  destruct (safe_downcast_i32 _) as [len|]; [|done].
  simpl in Hmeta. by injection Hmeta as <-.
Qed.

End MoreTensor.

(** ** The further properties on the reference device *)

Lemma ref_safe_downcast_i32_in_range (v : Z) :
  in_i32 v -> ref_safe_downcast_i32 v = Ok v.
Proof.
  unfold in_i32, ref_safe_downcast_i32. intros Hv.
  destruct (Z.leb_spec (- 2 ^ 31) v); [|lia].
  destruct (Z.ltb_spec v (2 ^ 31)); [done|lia].
Qed.

Lemma calc_gpu_sizes_idempotent_witness :
  calc_gpu_sizes [1; 4; 8; 8] kChannelsPacked kTexture3D = Ok [1; 4; 8; 8].
Proof.
  exact (calc_gpu_sizes_idempotent [1; 3; 8; 8] [1; 4; 8; 8] kChannelsPacked
           kTexture3D eq_refl).
Defined.


Lemma image_extents_of_shape_witness :
  exists G,
    calc_gpu_sizes [2; 3; 5; 7] kWidthPacked kTexture3D = Ok G /\
    create_image_extents ref_safe_downcast_u32 G kTexture3D kWidthPacked
      = Ok (mk_uvec3 2 5 6).
Proof.
  assert (Forall in_u32 [2; 3; 5; 7]) as H
    by (repeat constructor; unfold in_u32; lia).
  assert (in_u32 (align_up (packed_axis kWidthPacked 2 3 5 7) 4)) as Ha
    by (vm_compute; split; [discriminate | reflexivity]).
  exact (image_extents_of_shape ref_safe_downcast_u32
           ref_safe_downcast_u32_in_range [2; 3; 5; 7] kWidthPacked kTexture3D
           2 3 5 7 eq_refl eq_refl H Ha).
Defined.

Lemma transition_stage_masks_nonzero_witness :
  let pb := snd (ref_transition empty_barrier ref_COMPUTE ref_READ
                   ref_texture_storage) in
  stage_src pb <> 0 /\ stage_dst pb <> 0 /\ Z.testbit (stage_src pb) 0 = true.
Proof.
  destruct (transition_stage_masks_nonzero ref_vk_stage ref_vk_access
              ref_vk_layout ref_WRITE empty_barrier ref_COMPUTE ref_READ
              ref_texture_storage eq_refl) as (H1 & H2 & H3 & _).
  split; [exact H1|]. split; [exact H2|]. exact (H3 eq_refl).
Defined.

Lemma transition_after_read_without_image_witness :
  snd (ref_transition empty_barrier ref_COMPUTE ref_WRITE
         (fst (ref_transition empty_barrier ref_COMPUTE ref_READ
                 ref_buffer_storage))) = empty_barrier.
Proof.
  exact (transition_after_read_without_image ref_vk_stage ref_vk_access
           ref_vk_layout ref_WRITE empty_barrier ref_COMPUTE ref_READ
           ref_buffer_storage eq_refl eq_refl empty_barrier ref_COMPUTE
           ref_WRITE).
Defined.

Lemma vTensorStorage_new_allocates_once_witness :
  ref_create_storage_buffer (4 * 12) true ref_context
    = (ref_context_used, Ok (buffer_ ref_buffer_storage)).
Proof.
  exact (proj2 (proj2 (proj2 (proj2 (proj2
    (vTensorStorage_new_allocates_once ref_safe_downcast_u32 RefContext
       RefScalarType ref_to_vkformat ref_element_size ref_create_image
       ref_create_storage_buffer kBuffer kWidthPacked [12] ref_kFloat true
       ref_context ref_context_used ref_buffer_storage eq_refl)))))).
Defined.

Lemma vTensorStorage_new_rejects_rank_witness :
  exists msg,
    ref_vTensorStorage_new kTexture3D kWidthPacked [] ref_kFloat true
      ref_context = (ref_context, Err (InvalidArgument msg)).
Proof.
  apply (vTensorStorage_new_rejects_rank ref_safe_downcast_u32 RefContext
           RefScalarType ref_to_vkformat ref_element_size ref_create_image
           ref_create_storage_buffer kTexture3D kWidthPacked [] ref_kFloat
           true ref_context eq_refl).
  simpl. lia.
Defined.

Lemma discard_and_reallocate_result_witness :
  let w' := fst (ref_discard_and_reallocate [1; 1; 8; 8] kWidthPacked
                   ref_kFloat (ref_context_used, ref_texture_storage)) in
  create_image_extents ref_safe_downcast_u32 [1; 1; 8; 8] kTexture3D
    kWidthPacked = Ok (extents_ (snd w')) /\
  buffer_length_ (snd w') = 64 /\
  last_access_ (snd w') = LastAccess_empty.
Proof.
  intros w'.
  destruct (discard_and_reallocate_result ref_safe_downcast_u32 RefContext
              RefScalarType ref_to_vkformat ref_element_size ref_create_image
              ref_create_storage_buffer ref_register_image_cleanup
              ref_register_buffer_cleanup [1; 1; 8; 8] kWidthPacked ref_kFloat
              (ref_context_used, ref_texture_storage) w' eq_refl)
    as (_ & He & Hn & Hla & _).
  split; [exact He|]. split; [exact Hn | exact Hla].
Defined.

Lemma discard_and_reallocate_failure_leaves_flushed_witness :
  exists e,
    ref_discard_and_reallocate [] kWidthPacked ref_kFloat
      (ref_context_used, ref_texture_storage)
    = (flush RefContext ref_register_image_cleanup ref_register_buffer_cleanup
         (ref_context_used, ref_texture_storage), Err e).
Proof.
  eexists.
  exact (proj1 (discard_and_reallocate_failure_leaves_flushed
                  ref_safe_downcast_u32 RefContext RefScalarType
                  ref_to_vkformat ref_element_size ref_create_image
                  ref_create_storage_buffer ref_register_image_cleanup
                  ref_register_buffer_cleanup [] kWidthPacked ref_kFloat
                  (ref_context_used, ref_texture_storage) _ eq_refl)).
Defined.

Lemma update_size_metadata_result_witness :
  let t' := fst (ref_update_size_metadata [1; 1; 2; 3] ref_texture_tensor) in
  sizes_ t' = [1; 1; 2; 3] /\
  calc_gpu_sizes [1; 1; 2; 3] kWidthPacked kTexture3D = Ok (gpu_sizes_ t').
Proof.
  intros t'.
  destruct (update_size_metadata_result ref_safe_downcast_u32
              ref_safe_downcast_i32 RefScalarType (Z * Z * Z * Z)
              ref_make_whcn_ivec4 [1; 1; 2; 3] ref_texture_tensor t' eq_refl)
    as (H1 & H2 & _).
  split; [exact H1 | exact H2].
Defined.

Lemma resize_rank_failure_keeps_new_sizes_witness :
  exists msg,
    ref_update_size_metadata [1; 1; 1; 2; 2] ref_texture_tensor =
      (with_sizes RefScalarType (Z * Z * Z * Z) [1; 1; 1; 2; 2]
         ref_texture_tensor, Err (InvalidArgument msg)).
Proof.
  destruct (resize_rank_failure_keeps_new_sizes ref_safe_downcast_u32
              ref_safe_downcast_i32 RefScalarType (Z * Z * Z * Z)
              ref_make_whcn_ivec4 [1; 1; 1; 2; 2] ref_texture_tensor eq_refl
              ltac:(simpl; lia)) as (msg & H & _).
  exists msg. exact H.
Defined.

Lemma virtual_resize_buffer_succeeds_witness :
  exists t',
    ref_virtual_resize [3; 100] ref_buffer_tensor = (t', Ok tt) /\
    sizes_ t' = [3; 100].
Proof.
  destruct (virtual_resize_buffer_succeeds ref_safe_downcast_u32
              ref_safe_downcast_i32 RefScalarType (Z * Z * Z * Z)
              ref_make_whcn_ivec4 ref_safe_downcast_i32_in_range [3; 100]
              ref_buffer_tensor eq_refl)
    as (t' & H1 & H2 & _).
  - intros _. vm_compute. split; [discriminate | reflexivity].
  - exists t'. split; [exact H1 | exact H2].
Defined.

Lemma packed_dim_metadata_padding_witness :
  exists m,
    make_packed_dim_metadata RefScalarType ref_safe_downcast_i32
      (Z * Z * Z * Z)
      (mk_vTensor ref_kFloat kChannelsPacked [1; 3; 8; 8] [1; 4; 8; 8]
         (mk_ivec3 8 8 1) None None None
         (mk_vTensorStorage kTexture3D (mk_uvec3 8 8 1) 256
            (mk_VulkanImage 1 0 true) VulkanBuffer_null LastAccess_empty))
      = Ok m /\
    dim_size m = 3 /\ 0 <= padding m <= 3 /\ dim_size_padded m mod 4 = 0.
Proof.
  eexists. split; [reflexivity|].
  destruct (packed_dim_metadata_padding ref_safe_downcast_i32 RefScalarType
              (Z * Z * Z * Z)
              (mk_vTensor ref_kFloat kChannelsPacked [1; 3; 8; 8] [1; 4; 8; 8]
                 (mk_ivec3 8 8 1) None None None
                 (mk_vTensorStorage kTexture3D (mk_uvec3 8 8 1) 256
                    (mk_VulkanImage 1 0 true) VulkanBuffer_null
                    LastAccess_empty))
              (mk_PackedDimMeta 3 4 1 1) eq_refl
              ltac:(vm_compute; split; discriminate) eq_refl)
    as (H1 & H2 & _ & H4).
  split; [exact H1|]. split; [exact H2|]. apply H4. left. reflexivity.
Defined.

Lemma vTensor_new_result_witness :
  calc_gpu_sizes [1; 1; 4; 4] kWidthPacked kTexture3D
    = Ok (gpu_sizes_ ref_texture_tensor) /\
  packed_dim_meta_ ref_texture_tensor = None.
Proof.
  destruct (vTensor_new_result ref_safe_downcast_u32 RefContext RefScalarType
              ref_to_vkformat ref_element_size ref_create_image
              ref_create_storage_buffer ref_register_image_cleanup
              ref_register_buffer_cleanup ref_safe_downcast_i32
              (Z * Z * Z * Z) ref_is_kHalf true [1; 1; 4; 4] ref_kFloat
              kTexture3D kWidthPacked true ref_context ref_context_used
              ref_texture_tensor eq_refl)
    as (_ & _ & _ & H & _ & _ & _ & _ & H' & _).
  split; [exact H | exact H'].
Defined.

Lemma vTensor_new_half_unsupported_witness :
  exists msg,
    ref_vTensor_new_no_half [1; 1; 4; 4] ref_kHalf kTexture3D kWidthPacked true
      ref_context =
    (fst (flush RefContext ref_register_image_cleanup
            ref_register_buffer_cleanup (ref_context_used, ref_texture_storage)),
     Err (UnsupportedConfiguration msg)).
Proof.
  exact (proj2 (vTensor_new_half_unsupported ref_safe_downcast_u32 RefContext
                  RefScalarType ref_to_vkformat ref_element_size
                  ref_create_image ref_create_storage_buffer
                  ref_register_image_cleanup ref_register_buffer_cleanup
                  ref_safe_downcast_i32 (Z * Z * Z * Z) ref_is_kHalf false
                  [1; 1; 4; 4] ref_kHalf kTexture3D kWidthPacked true
                  ref_context eq_refl eq_refl)
           [1; 1; 4; 4] ref_context_used ref_texture_storage
           eq_refl eq_refl eq_refl).
Defined.

Lemma reallocate_result_witness :
  let t' := snd (fst (ref_reallocate [1; 1; 8; 8]
                        (ref_context_used, ref_texture_tensor))) in
  sizes_ t' = [1; 1; 8; 8] /\
  texture_limits_of ref_safe_downcast_i32 (extents t')
    = Ok (texture_limits_ t').
Proof.
  intros t'.
  destruct (reallocate_result ref_safe_downcast_u32 RefContext RefScalarType
              ref_to_vkformat ref_element_size ref_create_image
              ref_create_storage_buffer ref_register_image_cleanup
              ref_register_buffer_cleanup ref_safe_downcast_i32
              (Z * Z * Z * Z) ref_make_whcn_ivec4 [1; 1; 8; 8]
              (ref_context_used, ref_texture_tensor)
              (fst (ref_reallocate [1; 1; 8; 8]
                      (ref_context_used, ref_texture_tensor))) eq_refl)
    as (H1 & _ & _ & _ & _ & _ & _ & _ & H9).
  split; [exact H1 | exact (H9 eq_refl)].
Defined.

(** After the reallocation to [1; 1; 8; 8] the texture is two texels wide,
    and the packed-dimension metadata still says one. *)
Lemma reallocate_keeps_old_texel_length_witness :
  let t' := snd (fst (ref_reallocate [1; 1; 8; 8]
                        (ref_context_used, ref_texture_tensor_meta))) in
  exists m,
    packed_dim_meta_ t' = Some m /\ dim_texel_len m = 1 /\
    data0 (extents t') = 2.
Proof.
  intros t'.
  destruct (reallocate_keeps_old_texel_length ref_safe_downcast_u32 RefContext
              RefScalarType ref_to_vkformat ref_element_size ref_create_image
              ref_create_storage_buffer ref_register_image_cleanup
              ref_register_buffer_cleanup ref_safe_downcast_i32
              (Z * Z * Z * Z) ref_make_whcn_ivec4 [1; 1; 8; 8]
              (ref_context_used, ref_texture_tensor_meta)
              (fst (ref_reallocate [1; 1; 8; 8]
                      (ref_context_used, ref_texture_tensor_meta)))
              (mk_PackedDimMeta 4 4 1 0) eq_refl eq_refl)
    as (m & Hm & Hlen).
  exists m. split; [exact Hm|]. split; [|reflexivity].
  vm_compute in Hlen. injection Hlen as Hlen. symmetry. exact Hlen.
Defined.
